(** * Deployment Risk Calculator: a shallow embedding of
      [.github/actions/risk-calculator/index.js]

    The action is the [run] function printed in Exercise 1 of
    [Hands-On-JS-Actions.md].  It reads three action inputs, takes change
    statistics from the pull-request payload (or draws them with
    [Math.random]), accumulates a risk score from four factors, caps it, and
    classifies it.

    Modelling decisions.
    - A JavaScript Number is a value of [number]: NaN, the two infinities,
      negative zero, or a finite value carried as an exact rational.  The
      special values follow ECMAScript exactly; finite arithmetic is exact,
      i.e. the rounding of binary64 is not modelled.
    - [Math.random] is a source of draws threaded through the code by a state
      monad; the order of the calls and the short-circuits of [||] and [&&]
      that skip a call are kept.
    - [new Date().toISOString()] is an argument of [run].
    - Logging ([core.info], [core.summary]) has no effect on the outputs and
      is left out; the analysis output is kept as a record rather than as its
      JSON text. *)

From Stdlib Require Import ZArith QArith Qround Lqa Lia Bool List String Ascii.
From Stdlib Require Import DecimalString DecimalPos.
Import ListNotations.

Local Open Scope string_scope.

(* ------------------------------------------------------------------ *)
(** ** JavaScript numbers *)
(* ------------------------------------------------------------------ *)

Module JS.

Inductive number : Type :=
| NaN
| Inf (neg : bool)
| NegZero
| Fin (q : Q).

Definition of_Z (z : Z) : number := Fin (inject_Z z).

Definition Qlt_bool (x y : Q) : bool := negb (Qle_bool y x).

(** The rational a finite number stands for ([NegZero] is 0). *)
Definition value (x : number) : Q :=
  match x with
  | Fin q => q
  | _ => 0%Q
  end.

Definition signbit (x : number) : bool :=
  match x with
  | NaN => false
  | Inf neg => neg
  | NegZero => true
  | Fin q => Qlt_bool q 0
  end.

Definition is_zero (x : number) : bool :=
  match x with
  | NegZero => true
  | Fin q => Qeq_bool q 0
  | _ => false
  end.

Definition zero (neg : bool) : number :=
  if neg then NegZero else Fin 0.

(** A finite result: zero keeps the sign [neg], anything else is reduced. *)
Definition finite (neg : bool) (q : Q) : number :=
  if Qeq_bool q 0 then zero neg else Fin (Qred q).

(** [x * y] *)
Definition mul (x y : number) : number :=
  match x, y with
  | NaN, _ | _, NaN => NaN
  | Inf a, Inf b => Inf (xorb a b)
  | Inf a, _ => if is_zero y then NaN else Inf (xorb a (signbit y))
  | _, Inf b => if is_zero x then NaN else Inf (xorb (signbit x) b)
  | _, _ => finite (xorb (signbit x) (signbit y)) (value x * value y)
  end.

(** [x / y] *)
Definition div (x y : number) : number :=
  match x, y with
  | NaN, _ | _, NaN => NaN
  | Inf _, Inf _ => NaN
  | Inf a, _ => Inf (xorb a (signbit y))
  | _, Inf b => zero (xorb (signbit x) b)
  | _, _ =>
      if is_zero y then
        if is_zero x then NaN else Inf (xorb (signbit x) (signbit y))
      else finite (xorb (signbit x) (signbit y)) (value x / value y)
  end.

(** [x + y] *)
Definition add (x y : number) : number :=
  match x, y with
  | NaN, _ | _, NaN => NaN
  | Inf a, Inf b => if Bool.eqb a b then Inf a else NaN
  | Inf a, _ => Inf a
  | _, Inf b => Inf b
  | NegZero, NegZero => NegZero
  | _, _ => finite false (value x + value y)
  end.

(** [x < y]; false as soon as one side is NaN. *)
Definition lt (x y : number) : bool :=
  match x, y with
  | NaN, _ | _, NaN => false
  | Inf a, Inf b => a && negb b
  | Inf a, _ => a
  | _, Inf b => negb b
  | _, _ => Qlt_bool (value x) (value y)
  end.

(** [x <= y] *)
Definition le (x y : number) : bool :=
  match x, y with
  | NaN, _ | _, NaN => false
  | Inf a, Inf b => a || negb b
  | Inf a, _ => a
  | _, Inf b => negb b
  | _, _ => Qle_bool (value x) (value y)
  end.

(** [x > y] and [x >= y] *)
Definition gt (x y : number) : bool := lt y x.
Definition ge (x y : number) : bool := le y x.

(** [Math.min(x, y)]: NaN if either is, and -0 is below +0. *)
Definition Math_min (x y : number) : number :=
  match x, y with
  | NaN, _ | _, NaN => NaN
  | _, _ =>
      if lt x y then x
      else if lt y x then y
      else match x with NegZero => x | _ => y end
  end.

(** [Math.floor(x)] *)
Definition Math_floor (x : number) : number :=
  match x with
  | Fin q => of_Z (Qfloor q)
  | _ => x
  end.

(** [Math.round(x)]: to the nearest integer, ties towards +Infinity; a
    result of zero reached from below is -0. *)
Definition Math_round (x : number) : number :=
  match x with
  | Fin q =>
      if Qle_bool (-(1#2)) q && Qlt_bool q 0 then NegZero
      else of_Z (Qfloor (q + (1#2)))
  | _ => x
  end.

(** Is the value a mathematical integer? *)
Definition is_integer (q : Q) : bool := Qeq_bool q (inject_Z (Qfloor q)).

Section ToString.

(** [Number.prototype.toString] is exact on NaN, the infinities, the zeros
    and the integers, which are written in plain decimal (the exponent form
    JavaScript uses from 1e21 on is not modelled).  The digits of any other
    value depend on its binary64 form; that rendering is taken as given. *)
Variable fraction_toString : Q -> string.

Definition Z_toString (z : Z) : string :=
  NilZero.string_of_int (Z.to_int z).

Definition toString (x : number) : string :=
  match x with
  | NaN => "NaN"
  | Inf false => "Infinity"
  | Inf true => "-Infinity"
  | NegZero => "0"
  | Fin q =>
      if is_integer q then Z_toString (Qfloor q) else fraction_toString q
  end.

End ToString.

End JS.

(* ------------------------------------------------------------------ *)
(** ** String built-ins used by the action *)
(* ------------------------------------------------------------------ *)

Module Str.

(** White space of [String.prototype.trim] and [parseInt] within ASCII:
    TAB, LF, VT, FF, CR and SPACE. *)
Definition is_white (c : ascii) : bool :=
  let n := nat_of_ascii c in
  ((9 <=? n) && (n <=? 13) || (n =? 32))%nat.

Definition is_digit (c : ascii) : bool :=
  let n := nat_of_ascii c in
  ((48 <=? n) && (n <=? 57))%nat.

Definition digit_value (c : ascii) : Z :=
  Z.of_nat (nat_of_ascii c) - 48.

Fixpoint trimStart (s : string) : string :=
  match s with
  | String c s' => if is_white c then trimStart s' else s
  | EmptyString => EmptyString
  end.

Fixpoint trimEnd (s : string) : string :=
  match s with
  | String c s' =>
      match trimEnd s' with
      | EmptyString => if is_white c then EmptyString else String c EmptyString
      | r => String c r
      end
  | EmptyString => EmptyString
  end.

(** [s.trim()] *)
Definition trim (s : string) : string := trimEnd (trimStart s).

(** [s.split(sep)] for a one-character separator: never an empty array. *)
Fixpoint split (sep : ascii) (s : string) : list string :=
  match s with
  | EmptyString => [EmptyString]
  | String c s' =>
      if Ascii.eqb c sep then EmptyString :: split sep s'
      else match split sep s' with
           | piece :: rest => String c piece :: rest
           | [] => [String c EmptyString]
           end
  end.

(** [Boolean(s)] on a string: false only for the empty string. *)
Definition Boolean (s : string) : bool :=
  match s with
  | EmptyString => false
  | _ => true
  end.

(** The longest prefix of decimal digits, as an integer; [acc] is [None]
    until a digit has been read. *)
Fixpoint digits (acc : option Z) (s : string) : option Z :=
  match s with
  | String c s' =>
      if is_digit c then
        digits (Some (10 * match acc with Some a => a | None => 0 end
                      + digit_value c)%Z) s'
      else acc
  | EmptyString => acc
  end.

(** [parseInt(s, 10)]: skip white space, read a sign, read the digits that
    follow; NaN when there is none, and [-0] for a negated zero. *)
Definition parseInt (s : string) : JS.number :=
  let S := trimStart s in
  let '(neg, rest) :=
    match S with
    | String "-" r => (true, r)
    | String "+" r => (false, r)
    | _ => (false, S)
    end in
  match digits None rest with
  | None => JS.NaN
  | Some 0%Z => JS.zero neg
  | Some n => JS.of_Z (if neg then - n else n)
  end.

End Str.

(* ------------------------------------------------------------------ *)
(** ** [Math.random] as threaded state *)
(* ------------------------------------------------------------------ *)

Module Rand.

(** The draws still to come: [g 0] is the next one. *)
Definition rng : Type := nat -> Q.

Definition M (A : Type) : Type := rng -> A * rng.

Definition ret {A} (a : A) : M A := fun g => (a, g).

Definition bind {A B} (m : M A) (k : A -> M B) : M B :=
  fun g => let '(a, g') := m g in k a g'.

(** [Math.random()] *)
Definition Math_random : M JS.number :=
  fun g => (JS.finite false (g 0%nat), fun n => g (S n)).

(** Every draw lies in [0, 1). *)
Definition valid (g : rng) : Prop := forall n, (0 <= g n /\ g n < 1)%Q.

Definition constant (q : Q) : rng := fun _ => q.

End Rand.

Declare Scope rand_scope.
Delimit Scope rand_scope with rand.
Notation "x <- m ;; k" := (Rand.bind m (fun x => k))
  (at level 61, m at next level, right associativity) : rand_scope.
Notation "' pat <- m ;; k" := (Rand.bind m (fun x => let 'pat := x in k))
  (at level 61, pat pattern, m at next level, right associativity) : rand_scope.

(* ------------------------------------------------------------------ *)
(** ** The action *)
(* ------------------------------------------------------------------ *)

Module RiskCalculator.

Local Open Scope rand_scope.

(** What [core.getInput] returns for the three inputs of [action.yml]. *)
Record Inputs : Type := {
  files_changed_threshold : string;
  lines_changed_threshold : string;
  critical_paths : string
}.

(** [github.context.payload.pull_request]: a field is absent or an integer. *)
Record PullRequest : Type := {
  changed_files : option Z;
  pr_additions : option Z;
  pr_deletions : option Z
}.

(** A field of a factor holds a number or a string. *)
Inductive jsval : Type :=
| VNum (n : JS.number)
| VStr (s : string).

Record Factor : Type := {
  name : string;
  value : jsval;
  threshold : jsval;
  score : JS.number;
  impact : string
}.

Record Metrics : Type := {
  filesChanged : JS.number;
  additions : JS.number;
  deletions : JS.number;
  totalLines : JS.number
}.

(** The two variables the factor blocks update: [riskScore] and [factors]. *)
Record Scoring : Type := {
  riskScore : JS.number;
  factors : list Factor
}.

Record Analysis : Type := {
  a_riskScore : JS.number;
  a_riskLevel : string;
  a_factors : list Factor;
  a_metrics : Metrics;
  a_recommendation : string;
  a_approvalRequired : string;
  a_timestamp : string
}.

(** The values handed to [core.setOutput], and the [core.warning] if any. *)
Record Outputs : Type := {
  risk_score : string;
  risk_level : string;
  recommendation : string;
  analysis : Analysis;
  warning : option string
}.

(** [run] ends normally, or in its [catch] with [core.setFailed]. *)
Inductive Outcome : Type :=
| Completed (out : Outputs)
| SetFailed (message : string).

(** *** Inputs *)

(** [s.split(',').map(p => p.trim()).filter(Boolean)] *)
Definition parse_critical_paths (s : string) : list string :=
  filter Str.Boolean (map Str.trim (Str.split "," s)).

(** *** Metrics: [prContext?.field || Math.floor(Math.random() * n) + k] *)

(** [prContext?.field] *)
Definition optional_field (prContext : option PullRequest)
    (field : PullRequest -> option Z) : option Z :=
  match prContext with
  | Some pr => field pr
  | None => None
  end.

(** [v || fallback]: the fallback is evaluated only when [v] is falsy, that
    is undefined or 0. *)
Definition or_else (v : option Z) (fallback : Rand.M JS.number)
    : Rand.M JS.number :=
  match v with
  | Some z => if (z =? 0)%Z then fallback else Rand.ret (JS.of_Z z)
  | None => fallback
  end.

(** [Math.floor(Math.random() * n) + k] *)
Definition random_int (n k : Z) : Rand.M JS.number :=
  r <- Rand.Math_random ;;
  Rand.ret (JS.add (JS.Math_floor (JS.mul r (JS.of_Z n))) (JS.of_Z k)).

Definition get_metrics (prContext : option PullRequest) : Rand.M Metrics :=
  filesChanged <- or_else (optional_field prContext changed_files)
                          (random_int 30 1) ;;
  additions <- or_else (optional_field prContext pr_additions)
                       (random_int 400 50) ;;
  deletions <- or_else (optional_field prContext pr_deletions)
                       (random_int 200 20) ;;
  Rand.ret {| filesChanged := filesChanged;
              additions := additions;
              deletions := deletions;
              totalLines := JS.add additions deletions |}.

(** *** Classification *)

(** [(riskLevel, recommendation, approvalRequired)] *)
Definition classify (riskScore : JS.number) : string * string * string :=
  if JS.ge riskScore (JS.of_Z 75) then
    ("critical",
     "Deploy during maintenance window with full team availability",
     "VP approval required")
  else if JS.ge riskScore (JS.of_Z 50) then
    ("high",
     "Deploy during low-traffic hours with rollback plan ready",
     "Senior engineer approval required")
  else if JS.ge riskScore (JS.of_Z 25) then
    ("medium",
     "Standard deployment process with monitoring",
     "Peer review required")
  else
    ("low",
     "Safe to deploy anytime",
     "Standard review process").

(** The order low < medium < high < critical on the level strings. *)
Definition level_rank (level : string) : option nat :=
  if String.eqb level "low" then Some 0%nat
  else if String.eqb level "medium" then Some 1%nat
  else if String.eqb level "high" then Some 2%nat
  else if String.eqb level "critical" then Some 3%nat
  else None.

Section Run.

Variable fraction_toString : Q -> string.

Let toString := JS.toString fraction_toString.

(** *** Factor 1: number of files changed *)

Definition filesFactor (filesChanged filesThreshold : JS.number) : JS.number :=
  JS.Math_min (JS.mul (JS.div filesChanged filesThreshold) (JS.of_Z 30))
              (JS.of_Z 30).

Definition files_step (filesChanged filesThreshold : JS.number)
    (st : Scoring) : Scoring :=
  let f := filesFactor filesChanged filesThreshold in
  {| riskScore := JS.add (riskScore st) f;
     factors := factors st ++
       [{| name := "Files Changed";
           value := VNum filesChanged;
           threshold := VNum filesThreshold;
           score := JS.Math_round f;
           impact := if JS.gt f (JS.of_Z 20) then "high"
                     else if JS.gt f (JS.of_Z 10) then "medium"
                     else "low" |}] |}.

(** *** Factor 2: lines of code changed *)

Definition linesFactor (totalLines linesThreshold : JS.number) : JS.number :=
  JS.Math_min (JS.mul (JS.div totalLines linesThreshold) (JS.of_Z 35))
              (JS.of_Z 35).

Definition lines_step (totalLines linesThreshold : JS.number)
    (st : Scoring) : Scoring :=
  let f := linesFactor totalLines linesThreshold in
  {| riskScore := JS.add (riskScore st) f;
     factors := factors st ++
       [{| name := "Lines Changed";
           value := VNum totalLines;
           threshold := VNum linesThreshold;
           score := JS.Math_round f;
           impact := if JS.gt f (JS.of_Z 25) then "high"
                     else if JS.gt f (JS.of_Z 15) then "medium"
                     else "low" |}] |}.

(** *** Factor 3: critical paths touched (simulated) *)

(** [criticalPaths.length > 0 && Math.random() > 0.6]: no draw is made
    when the list is empty. *)
Definition touchesCritical (criticalPaths : list string) : Rand.M bool :=
  if (0 <? List.length criticalPaths)%nat then
    r <- Rand.Math_random ;;
    Rand.ret (JS.gt r (JS.Fin (3#5)))
  else Rand.ret false.

Definition critical_factor (touches : bool) : Factor :=
  if touches then
    {| name := "Critical Paths"; value := VStr "Yes";
       threshold := VStr "N/A"; score := JS.of_Z 25; impact := "high" |}
  else
    {| name := "Critical Paths"; value := VStr "No";
       threshold := VStr "N/A"; score := JS.of_Z 0; impact := "none" |}.

Definition critical_step (touches : bool) (st : Scoring) : Scoring :=
  if touches then
    {| riskScore := JS.add (riskScore st) (JS.of_Z 25);
       factors := factors st ++ [critical_factor true] |}
  else
    {| riskScore := riskScore st;
       factors := factors st ++ [critical_factor false] |}.

(** *** Factor 4: ratio of deletions to additions *)

Definition deletionRatio (additions deletions : JS.number) : JS.number :=
  JS.div deletions (JS.add additions (JS.of_Z 1)).

Definition deletion_factor (ratio : JS.number) : Factor :=
  {| name := "High Deletion Ratio";
     value := VStr (toString (JS.Math_round (JS.mul ratio (JS.of_Z 100)))
                    ++ "%");
     threshold := VStr "50%";
     score := JS.of_Z 10;
     impact := "medium" |}.

Definition deletion_step (additions deletions : JS.number)
    (st : Scoring) : Scoring :=
  let ratio := deletionRatio additions deletions in
  if JS.gt ratio (JS.Fin (1#2)) then
    {| riskScore := JS.add (riskScore st) (JS.of_Z 10);
       factors := factors st ++ [deletion_factor ratio] |}
  else st.

(** *** The four factors in order, from [riskScore = 0], [factors = []] *)

Definition score_factors (filesThreshold linesThreshold : JS.number)
    (criticalPaths : list string) (m : Metrics) : Rand.M Scoring :=
  let st := {| riskScore := JS.of_Z 0; factors := [] |} in
  let st := files_step (filesChanged m) filesThreshold st in
  let st := lines_step (totalLines m) linesThreshold st in
  touches <- touchesCritical criticalPaths ;;
  let st := critical_step touches st in
  Rand.ret (deletion_step (additions m) (deletions m) st).

(** [Math.min(Math.round(riskScore), 100)] *)
Definition cap (riskScore : JS.number) : JS.number :=
  JS.Math_min (JS.Math_round riskScore) (JS.of_Z 100).

(** *** [run] *)

Definition run (inputs : Inputs) (prContext : option PullRequest)
    (now : string) : Rand.M Outcome :=
  let filesThreshold := Str.parseInt (files_changed_threshold inputs) in
  let linesThreshold := Str.parseInt (lines_changed_threshold inputs) in
  let criticalPaths := parse_critical_paths (critical_paths inputs) in
  m <- get_metrics prContext ;;
  st <- score_factors filesThreshold linesThreshold criticalPaths m ;;
  let riskScore := cap (riskScore st) in
  let '(riskLevel, recommendation, approvalRequired) := classify riskScore in
  Rand.ret (Completed
    {| risk_score := toString riskScore;
       risk_level := riskLevel;
       recommendation := recommendation;
       analysis :=
         {| a_riskScore := riskScore;
            a_riskLevel := riskLevel;
            a_factors := factors st;
            a_metrics := m;
            a_recommendation := recommendation;
            a_approvalRequired := approvalRequired;
            a_timestamp := now |};
       warning :=
         if JS.ge riskScore (JS.of_Z 50) then
           Some ("High risk deployment detected (" ++ toString riskScore
                 ++ "/100). Extra caution recommended.")
         else None |}).

End Run.

End RiskCalculator.

(* ------------------------------------------------------------------ *)
(** ** More string built-ins *)
(* ------------------------------------------------------------------ *)

Module Text.

(** Case mapping within ASCII: only the letters A-Z and a-z move. *)
Definition lower (c : ascii) : ascii :=
  let n := nat_of_ascii c in
  if ((65 <=? n) && (n <=? 90))%nat then ascii_of_nat (n + 32) else c.

Definition upper (c : ascii) : ascii :=
  let n := nat_of_ascii c in
  if ((97 <=? n) && (n <=? 122))%nat then ascii_of_nat (n - 32) else c.

Fixpoint map_chars (f : ascii -> ascii) (s : string) : string :=
  match s with
  | EmptyString => EmptyString
  | String c s' => String (f c) (map_chars f s')
  end.

(** [s.toLowerCase()] and [s.toUpperCase()] *)
Definition toLowerCase (s : string) : string := map_chars lower s.
Definition toUpperCase (s : string) : string := map_chars upper s.

(** [array.includes(s)] on an array of strings *)
Definition includes (array : list string) (s : string) : bool :=
  existsb (String.eqb s) array.

(** [array.join(sep)] *)
Definition join (sep : string) (array : list string) : string :=
  String.concat sep array.

(** [s.length] *)
Definition length (s : string) : Z := Z.of_nat (String.length s).

(** [s.split(/\s+/)]: the pieces between the maximal runs of white space;
    [in_run] tells that the previous character was white space. *)
Fixpoint split_runs (in_run : bool) (s : string) : list string :=
  match s with
  | EmptyString => [EmptyString]
  | String c s' =>
      if Str.is_white c then
        if in_run then split_runs true s'
        else EmptyString :: split_runs true s'
      else match split_runs false s' with
           | piece :: rest => String c piece :: rest
           | [] => [String c EmptyString]
           end
  end.

Definition split_whitespace (s : string) : list string := split_runs false s.

End Text.

(* ------------------------------------------------------------------ *)
(** ** Required inputs *)
(* ------------------------------------------------------------------ *)

Module Core.

(** What a [core.getInput(name, { required: true })] call does: it returns
    the value, or throws an error with a message.  [@actions/core] is not
    part of the repository; a run is given the behaviour of each call. *)
Inductive required_input : Type :=
| Returned (value : string)
| Thrown (message : string).

End Core.

(* ------------------------------------------------------------------ *)
(** ** The validate-inputs action *)
(* ------------------------------------------------------------------ *)

(** [run] of [.github/actions/validate-inputs/index.js] (Exercise 3).  The
    [semver] package is not part of the repository: [semver.valid] is a
    parameter.  A required input is given by what its [core.getInput] call
    does, return a value or throw.  The config output is kept as a record,
    and the [core.info] lines and the summary are left out. *)
Module ValidateInputs.

Import Core.

Record Config : Type := {
  environment : string;
  version : string;
  port : JS.number;
  ssl : bool;
  timestamp : string
}.

(** The two variables the checks update: [isValid] and [errors]. *)
Record Validation : Type := {
  isValid : bool;
  errors : list string
}.

(** How [run] ends.
    - [Validated config]: the outputs validated = true and config are set.
    - [Invalid errors]: a header and each error are logged with
      [core.error], then [core.setFailed('Input validation failed')].
    - [SetFailed message]: the [catch], [core.setFailed(message)]. *)
Inductive Outcome : Type :=
| Validated (config : Config)
| Invalid (errors : list string)
| SetFailed (message : string).

(** The [core.error] lines of an outcome. *)
Definition error_log (o : Outcome) : list string :=
  match o with
  | Invalid errors =>
      "Validation failed with the following errors:"
      :: map (fun error => "  - " ++ error) errors
  | _ => []
  end.

(** The [core.setFailed] message of an outcome, if any. *)
Definition failure_message (o : Outcome) : option string :=
  match o with
  | Validated _ => None
  | Invalid _ => Some "Input validation failed"
  | SetFailed message => Some message
  end.

Definition validEnvironments : list string :=
  ["development"; "staging"; "production"].

(** [errors.push(message); isValid = false] *)
Definition reject (message : string) (st : Validation) : Validation :=
  {| isValid := false; errors := errors st ++ [message] |}.

(** [isNaN(x)] *)
Definition isNaN (x : JS.number) : bool :=
  match x with
  | JS.NaN => true
  | _ => false
  end.

Definition check_environment (environment : string) (st : Validation)
    : Validation :=
  if negb (Text.includes validEnvironments environment) then
    reject ("Invalid environment: " ++ environment ++ ". Must be one of: "
            ++ Text.join ", " validEnvironments) st
  else st.

Definition check_port (port : string) (portNumber : JS.number)
    (st : Validation) : Validation :=
  if isNaN portNumber || JS.lt portNumber (JS.of_Z 1)
     || JS.gt portNumber (JS.of_Z 65535) then
    reject ("Invalid port: " ++ port ++ ". Must be between 1 and 65535") st
  else st.

Definition check_ssl (enableSSL : string) (st : Validation) : Validation :=
  if negb (Text.includes ["true"; "false"] (Text.toLowerCase enableSSL)) then
    reject ("Invalid enable-ssl: " ++ enableSSL ++ ". Must be true or false") st
  else st.

Section Run.

(** [semver.valid(version)]: the cleaned version, or [null]. *)
Variable semver_valid : string -> option string.

(** The truthiness [!semver.valid(version)] negates. *)
Definition truthy (v : option string) : bool :=
  match v with
  | Some s => Str.Boolean s
  | None => false
  end.

Definition check_version (version : string) (st : Validation) : Validation :=
  if negb (truthy (semver_valid version)) then
    reject ("Invalid version: " ++ version
            ++ ". Must be valid semver (e.g., 1.0.0)") st
  else st.

Definition run (environment version : required_input)
    (port enableSSL now : string) : Outcome :=
  match environment with
  | Thrown message => SetFailed ("Action failed: " ++ message)
  | Returned environment =>
  match version with
  | Thrown message => SetFailed ("Action failed: " ++ message)
  | Returned version =>
      let st := {| isValid := true; errors := [] |} in
      let st := check_environment environment st in
      let st := check_version version st in
      let portNumber := Str.parseInt port in
      let st := check_port port portNumber st in
      let st := check_ssl enableSSL st in
      if negb (isValid st) then Invalid (errors st)
      else Validated {| environment := environment;
                        version := version;
                        port := portNumber;
                        ssl := String.eqb enableSSL "true";
                        timestamp := now |}
  end
  end.

End Run.

End ValidateInputs.

(* ------------------------------------------------------------------ *)
(** ** The file-processor action *)
(* ------------------------------------------------------------------ *)

(** [run] of the file processor (Exercise 5).  The file system is given by
    what each awaited call does; a run records the calls it makes.
    [path.dirname] and [Number.prototype.toFixed] are parameters.  Text is
    ASCII, so that [content.length] is the number of characters.  The
    [core.info] lines and the summary are left out. *)
Module FileProcessor.

Import Core.

(** An awaited call returns a value or throws. *)
Inductive result (A : Type) : Type :=
| Ok (a : A)
| Throws (message : string).

Arguments Ok {A} a.
Arguments Throws {A} message.

(** The calls made on the file system. *)
Inductive Call : Type :=
| Access (path : string)
| ReadFile (path : string)
| MkdirP (dir : string)
| WriteFile (path content : string).

Record FileSystem : Type := {
  access : string -> result unit;
  readFile : string -> result string;
  mkdirP : string -> result unit;
  writeFile : string -> string -> result unit
}.

(** The [stats] object: a property is absent until it is assigned. *)
Record Stats : Type := {
  totalLines : option Z;
  nonEmptyLines : option Z;
  totalCharacters : option Z;
  words : option Z
}.

(** How [run] ends: the two outputs are set, or [core.setFailed]. *)
Inductive Outcome : Type :=
| Done (lines_processed output_path : string)
| SetFailed (message : string).

(** Calls made so far, and a value or the error thrown. *)
Definition IO (A : Type) : Type := list Call * result A.

Definition ret {A} (a : A) : IO A := ([], Ok a).

Definition throw {A} (message : string) : IO A := ([], Throws message).

Definition bind {A B} (m : IO A) (k : A -> IO B) : IO B :=
  match m with
  | (calls, Ok a) => let '(calls', r) := k a in ((calls ++ calls')%list, r)
  | (calls, Throws message) => (calls, Throws message)
  end.

(** One awaited call. *)
Definition await {A} (c : Call) (r : result A) : IO A := ([c], r).

(** [try { m } catch (error) { throw new Error(message) }] *)
Definition rethrow {A} (m : IO A) (message : string) : IO A :=
  match m with
  | (calls, Throws _) => (calls, Throws message)
  | _ => m
  end.

Definition LF : ascii := ascii_of_nat 10.

Definition nl : string := String LF EmptyString.

(** [lines.filter(line => line.trim().length > 0).length] *)
Definition count_non_empty (lines : list string) : Z :=
  Z.of_nat (List.length
    (filter (fun line => (0 <? Text.length (Str.trim line))%Z) lines)).

(** [content.split(/\s+/).filter(word => word.length > 0).length] *)
Definition count_words (content : string) : Z :=
  Z.of_nat (List.length
    (filter (fun word => (0 <? Text.length word)%Z)
            (Text.split_whitespace content))).

(** [v || fallback] on a count: an absent or zero [v] gives the fallback. *)
Definition or_count (v : option Z) (fallback : Z) : Z :=
  match v with
  | Some n => if (n =? 0)%Z then fallback else n
  | None => fallback
  end.

Definition no_stats : Stats :=
  {| totalLines := None; nonEmptyLines := None;
     totalCharacters := None; words := None |}.

Section Run.

Variable fs : FileSystem.

(** [path.dirname] *)
Variable dirname : string -> string.

(** [x.toFixed(2)] *)
Variable toFixed2 : JS.number -> string.

(** The [switch (operation)]: the text to write and the statistics. *)
Definition process (operation content : string) (lines : list string)
    : IO (string * Stats) :=
  if String.eqb operation "count-lines" then
    let total := Z.of_nat (List.length lines) in
    let nonEmpty := count_non_empty lines in
    ret ("Total lines: " ++ JS.Z_toString total ++ nl
         ++ "Non-empty lines: " ++ JS.Z_toString nonEmpty,
         {| totalLines := Some total; nonEmptyLines := Some nonEmpty;
            totalCharacters := None; words := None |})
  else if String.eqb operation "uppercase" then
    ret (Text.toUpperCase content,
         {| totalLines := Some (Z.of_nat (List.length lines));
            nonEmptyLines := None; totalCharacters := None; words := None |})
  else if String.eqb operation "stats" then
    let total := Z.of_nat (List.length lines) in
    let nonEmpty := count_non_empty lines in
    let characters := Text.length content in
    let words := count_words content in
    ret ("File Statistics" ++ nl
         ++ "===============" ++ nl
         ++ "Total Lines: " ++ JS.Z_toString total ++ nl
         ++ "Non-empty Lines: " ++ JS.Z_toString nonEmpty ++ nl
         ++ "Total Characters: " ++ JS.Z_toString characters ++ nl
         ++ "Total Words: " ++ JS.Z_toString words ++ nl
         ++ "Average Line Length: "
         ++ toFixed2 (JS.div (JS.of_Z characters) (JS.of_Z total)) ++ nl,
         {| totalLines := Some total; nonEmptyLines := Some nonEmpty;
            totalCharacters := Some characters; words := Some words |})
  else throw ("Unknown operation: " ++ operation).

(** The body of the [try]. *)
Definition body (inputFile outputFile : required_input) (operation : string)
    : IO (string * string) :=
  match inputFile with
  | Thrown message => throw message
  | Returned inputFile =>
  match outputFile with
  | Thrown message => throw message
  | Returned outputFile =>
      bind (rethrow (await (Access inputFile) (access fs inputFile))
                    ("Input file not found: " ++ inputFile)) (fun _ =>
      bind (await (ReadFile inputFile) (readFile fs inputFile)) (fun content =>
      let lines := Str.split LF content in
      bind (process operation content lines) (fun '(text, stats) =>
      let outputDir := dirname outputFile in
      bind (await (MkdirP outputDir) (mkdirP fs outputDir)) (fun _ =>
      bind (await (WriteFile outputFile text) (writeFile fs outputFile text))
        (fun _ =>
      ret (JS.Z_toString (or_count (totalLines stats)
                            (Z.of_nat (List.length lines))),
           outputFile))))))
  end
  end.

(** [run]: the calls made, and how it ends. *)
Definition run (inputFile outputFile : required_input) (operation : string)
    : list Call * Outcome :=
  match body inputFile outputFile operation with
  | (calls, Ok (lines_processed, output_path)) =>
      (calls, Done lines_processed output_path)
  | (calls, Throws message) =>
      (calls, SetFailed ("Action failed: " ++ message))
  end.

End Run.

End FileProcessor.

(* ------------------------------------------------------------------ *)
(** ** Vocabulary of the statements *)
(* ------------------------------------------------------------------ *)

(** [x] is a finite number standing for the rational [q]. *)
Definition fin_val (x : JS.number) (q : Q) : Prop :=
  match x with
  | JS.Fin q' => q' == q
  | _ => False
  end.

(** Is there a factor called [n] in the sequence? *)
Definition has_factor (n : string) (fs : list RiskCalculator.Factor) : bool :=
  existsb (fun f => String.eqb (RiskCalculator.name f) n) fs.

(** Every field of the payload is absent or a non-negative integer. *)
Definition nonneg_field (v : option Z) : Prop :=
  match v with
  | Some z => (0 <= z)%Z
  | None => True
  end.

Definition nonneg_payload (pr : option RiskCalculator.PullRequest) : Prop :=
  match pr with
  | Some p =>
      nonneg_field (RiskCalculator.changed_files p) /\
      nonneg_field (RiskCalculator.pr_additions p) /\
      nonneg_field (RiskCalculator.pr_deletions p)
  | None => True
  end.

(** A field that [||] passes over: absent, or zero. *)
Definition falsy (v : option Z) : Prop := v = None \/ v = Some 0%Z.

(** All three fields of the payload are present and truthy. *)
Definition explicit_field (v : option Z) : Prop :=
  exists z, v = Some z /\ z <> 0%Z.

Definition explicit_payload (pr : option RiskCalculator.PullRequest) : Prop :=
  exists p, pr = Some p /\
    explicit_field (RiskCalculator.changed_files p) /\
    explicit_field (RiskCalculator.pr_additions p) /\
    explicit_field (RiskCalculator.pr_deletions p).

(** The state the deletion block starts from: the first three factors. *)
Definition before_deletion (filesThreshold linesThreshold : JS.number)
    (criticalPaths : list string) (m : RiskCalculator.Metrics)
    (g : Rand.rng) : RiskCalculator.Scoring :=
  RiskCalculator.critical_step
    (fst (RiskCalculator.touchesCritical criticalPaths g))
    (RiskCalculator.lines_step (RiskCalculator.totalLines m) linesThreshold
       (RiskCalculator.files_step (RiskCalculator.filesChanged m)
          filesThreshold
          {| RiskCalculator.riskScore := JS.of_Z 0;
             RiskCalculator.factors := [] |})).

(** The scores shown in the factor table, added up. *)
Definition factor_scores_sum (fs : list RiskCalculator.Factor) : JS.number :=
  fold_left (fun acc f => JS.add acc (RiskCalculator.score f)) fs (JS.of_Z 0).

(** Every character of [s] satisfies [p]. *)
Fixpoint all_chars (p : ascii -> bool) (s : string) : bool :=
  match s with
  | EmptyString => true
  | String c s' => p c && all_chars p s'
  end.

(** A comma or white space: what [parse_critical_paths] drops. *)
Definition comma_or_white (c : ascii) : bool :=
  Ascii.eqb c "," || Str.is_white c.

(** The string is empty or starts with a character that satisfies [p]. *)
Definition head_is (p : ascii -> bool) (s : string) : bool :=
  match s with
  | EmptyString => true
  | String c _ => p c
  end.

Definition not_white (c : ascii) : bool := negb (Str.is_white c).
Definition not_digit (c : ascii) : bool := negb (Str.is_digit c).
Definition not_comma (c : ascii) : bool := negb (Ascii.eqb c ",").

(** The integer a decimal numeral stands for, read after the digits that
    gave [acc]. *)
Fixpoint uint_value (acc : Z) (d : Decimal.uint) : Z :=
  match d with
  | Decimal.Nil => acc
  | Decimal.D0 d => uint_value (10 * acc + 0) d
  | Decimal.D1 d => uint_value (10 * acc + 1) d
  | Decimal.D2 d => uint_value (10 * acc + 2) d
  | Decimal.D3 d => uint_value (10 * acc + 3) d
  | Decimal.D4 d => uint_value (10 * acc + 4) d
  | Decimal.D5 d => uint_value (10 * acc + 5) d
  | Decimal.D6 d => uint_value (10 * acc + 6) d
  | Decimal.D7 d => uint_value (10 * acc + 7) d
  | Decimal.D8 d => uint_value (10 * acc + 8) d
  | Decimal.D9 d => uint_value (10 * acc + 9) d
  end.

(** How often [c] occurs in [s]. *)
Fixpoint occurrences (c : ascii) (s : string) : nat :=
  match s with
  | EmptyString => 0%nat
  | String c' s' => ((if Ascii.eqb c' c then 1 else 0) + occurrences c s')%nat
  end.

(** The four checks of validate-inputs, each on its own. *)
Definition environment_ok (environment : string) : bool :=
  Text.includes ValidateInputs.validEnvironments environment.

Definition version_ok (semver_valid : string -> option string)
    (version : string) : bool :=
  ValidateInputs.truthy (semver_valid version).

Definition port_ok (port : string) : bool :=
  negb (ValidateInputs.isNaN (Str.parseInt port)
        || JS.lt (Str.parseInt port) (JS.of_Z 1)
        || JS.gt (Str.parseInt port) (JS.of_Z 65535)).

Definition ssl_ok (enableSSL : string) : bool :=
  Text.includes ["true"; "false"] (Text.toLowerCase enableSSL).

(** The message of a check that fails, none for one that passes. *)
Definition report (ok : bool) (message : string) : list string :=
  if ok then [] else [message].

(** One message per failing check, in the order of the checks. *)
Definition expected_errors (semver_valid : string -> option string)
    (environment version port enableSSL : string) : list string :=
  (report (environment_ok environment)
     ("Invalid environment: " ++ environment
      ++ ". Must be one of: development, staging, production")
   ++ report (version_ok semver_valid version)
     ("Invalid version: " ++ version ++ ". Must be valid semver (e.g., 1.0.0)")
   ++ report (port_ok port)
     ("Invalid port: " ++ port ++ ". Must be between 1 and 65535")
   ++ report (ssl_ok enableSSL)
     ("Invalid enable-ssl: " ++ enableSSL ++ ". Must be true or false"))%list.

(** How many of the four checks fail. *)
Definition failures (semver_valid : string -> option string)
    (environment version port enableSSL : string) : nat :=
  ((if environment_ok environment then 0 else 1)
   + (if version_ok semver_valid version then 0 else 1)
   + (if port_ok port then 0 else 1)
   + (if ssl_ok enableSSL then 0 else 1))%nat.

(** Is the call a write to the file system? *)
Definition is_write (c : FileProcessor.Call) : bool :=
  match c with
  | FileProcessor.MkdirP _ | FileProcessor.WriteFile _ _ => true
  | _ => false
  end.

(** The strings are models of ASCII text: a property that depends on how
    a built-in treats other characters is stated for ASCII text only. *)
Definition is_ascii (c : ascii) : bool := (nat_of_ascii c <? 128)%nat.

Definition ascii_text (s : string) : Prop := all_chars is_ascii s = true.

(** The integers every Number holds exactly: up to 2^53 - 1 in size. *)
Definition safe_integer (z : Z) : Prop := (Z.abs z <= 9007199254740991)%Z.

(** A file system with one file, in which every write succeeds. *)
Definition one_file (path content : string) : FileProcessor.FileSystem :=
  {| FileProcessor.access := fun p =>
       if String.eqb p path then FileProcessor.Ok tt
       else FileProcessor.Throws "ENOENT: no such file or directory";
     FileProcessor.readFile := fun p =>
       if String.eqb p path then FileProcessor.Ok content
       else FileProcessor.Throws "ENOENT: no such file or directory";
     FileProcessor.mkdirP := fun _ => FileProcessor.Ok tt;
     FileProcessor.writeFile := fun _ _ => FileProcessor.Ok tt |}.

(* ------------------------------------------------------------------ *)
(** ** Facts about numbers *)
(* ------------------------------------------------------------------ *)

Module JSFacts.

Import JS.

Lemma Qlt_bool_iff (x y : Q) : Qlt_bool x y = true <-> x < y.
Proof.
  unfold Qlt_bool. rewrite negb_true_iff. split; intro H.
  - apply Qnot_le_lt. intro L. apply Qle_bool_iff in L. congruence.
  - destruct (Qle_bool y x) eqn:E; [|reflexivity].
    apply Qle_bool_iff in E. exfalso. exact (Qlt_not_le _ _ H E).
Qed.

Lemma Qlt_bool_false_iff (x y : Q) : Qlt_bool x y = false <-> y <= x.
Proof.
  unfold Qlt_bool. rewrite negb_false_iff. apply Qle_bool_iff.
Qed.

Lemma Qle_bool_false_iff (x y : Q) : Qle_bool x y = false <-> y < x.
Proof.
  rewrite <- Qlt_bool_iff. unfold Qlt_bool.
  destruct (Qle_bool x y); simpl; intuition congruence.
Qed.

Lemma Qred_inject_Z (z : Z) : Qred (inject_Z z) = inject_Z z.
Proof.
  pose proof (Qred_correct (inject_Z z)) as C.
  pose proof (gcd_Qred (inject_Z z)) as G.
  destruct (Qred (inject_Z z)) as [n d].
  unfold Qeq in C. simpl in C, G.
  assert (D : (Z.pos d | Z.gcd n (Z.pos d))%Z).
  { apply Z.gcd_greatest; [exists z; lia | apply Z.divide_refl]. }
  rewrite G in D. apply Z.divide_1_r_nonneg in D; [|lia].
  assert (d = 1%positive) by lia. subst d.
  unfold inject_Z. f_equal. lia.
Qed.

Lemma fin_val_of_Z (z : Z) : fin_val (of_Z z) (inject_Z z).
Proof. simpl. reflexivity. Qed.

Lemma fin_val_eq (x : number) (p q : Q) : fin_val x p -> p == q -> fin_val x q.
Proof. destruct x; simpl; try tauto. intros H E. rewrite H. exact E. Qed.

Lemma fin_val_unique (x : number) (p q : Q) : fin_val x p -> fin_val x q -> p == q.
Proof. destruct x; simpl; try tauto. intros H1 H2. rewrite <- H1. exact H2. Qed.

Lemma fin_val_value (x : number) (q : Q) : fin_val x q -> value x == q.
Proof. destruct x; simpl; tauto. Qed.

Lemma finite_false (q : Q) : fin_val (finite false q) q.
Proof.
  unfold finite. destruct (Qeq_bool q 0) eqn:E; simpl.
  - apply Qeq_bool_iff in E. symmetry. exact E.
  - apply Qred_correct.
Qed.


Lemma finite_inject_Z (z : Z) : finite false (inject_Z z) = of_Z z.
Proof.
  unfold finite. destruct (Qeq_bool (inject_Z z) 0) eqn:E; unfold of_Z.
  - apply Qeq_bool_iff in E.
    assert (z = 0%Z) by (apply inject_Z_injective; exact E).
    subst z. reflexivity.
  - rewrite Qred_inject_Z. reflexivity.
Qed.

Lemma signbit_nonneg (x : number) (q : Q) : fin_val x q -> 0 <= q -> signbit x = false.
Proof.
  destruct x; simpl; try tauto. intros H L.
  apply Qlt_bool_false_iff. rewrite H. exact L.
Qed.

Lemma signbit_neg (x : number) (q : Q) : fin_val x q -> q < 0 -> signbit x = true.
Proof.
  destruct x; simpl; try tauto. intros H L.
  apply Qlt_bool_iff. rewrite H. exact L.
Qed.

Lemma is_zero_fin (x : number) (q : Q) : fin_val x q -> ~ q == 0 -> is_zero x = false.
Proof.
  destruct x; simpl; try tauto. intros H N.
  destruct (Qeq_bool q0 0) eqn:E; [|reflexivity].
  apply Qeq_bool_iff in E. rewrite H in E. contradiction.
Qed.

Lemma add_of_Z (a b : Z) : add (of_Z a) (of_Z b) = of_Z (a + b).
Proof.
  unfold add, of_Z at 1 2. simpl value.
  rewrite <- inject_Z_plus. apply finite_inject_Z.
Qed.

Lemma add_fin (x y : number) (p q : Q) :
  fin_val x p -> fin_val y q -> fin_val (add x y) (p + q).
Proof.
  destruct x, y; simpl; try tauto. intros Hx Hy.
  eapply fin_val_eq; [apply finite_false|]. rewrite Hx, Hy. reflexivity.
Qed.

Lemma mul_fin_nonneg (x y : number) (p q : Q) :
  fin_val x p -> fin_val y q -> 0 <= p -> 0 <= q -> fin_val (mul x y) (p * q).
Proof.
  intros Hx Hy Lp Lq.
  pose proof (signbit_nonneg _ _ Hx Lp) as Sx.
  pose proof (signbit_nonneg _ _ Hy Lq) as Sy.
  destruct x, y; simpl in Hx, Hy; try tauto.
  unfold mul. rewrite Sx, Sy. simpl xorb. simpl value.
  eapply fin_val_eq; [apply finite_false|]. rewrite Hx, Hy. reflexivity.
Qed.

Lemma div_fin_pos (x y : number) (p q : Q) :
  fin_val x p -> fin_val y q -> 0 <= p -> 0 < q -> fin_val (div x y) (p / q).
Proof.
  intros Hx Hy Lp Lq.
  pose proof (signbit_nonneg _ _ Hx Lp) as Sx.
  assert (Sy : signbit y = false).
  { apply (signbit_nonneg _ _ Hy). apply Qlt_le_weak. exact Lq. }
  assert (Zy : is_zero y = false).
  { apply (is_zero_fin _ _ Hy). intro E. rewrite E in Lq.
    exact (Qlt_irrefl _ Lq). }
  destruct x, y; simpl in Hx, Hy; try tauto.
  unfold div. rewrite Zy, Sx, Sy. simpl xorb. simpl value.
  eapply fin_val_eq; [apply finite_false|]. rewrite Hx, Hy. reflexivity.
Qed.

Lemma lt_fin (x y : number) (p q : Q) :
  fin_val x p -> fin_val y q -> (lt x y = true <-> p < q).
Proof.
  destruct x, y; simpl; try tauto. intros Hx Hy.
  rewrite Qlt_bool_iff, Hx, Hy. reflexivity.
Qed.

Lemma le_fin (x y : number) (p q : Q) :
  fin_val x p -> fin_val y q -> (le x y = true <-> p <= q).
Proof.
  destruct x, y; simpl; try tauto. intros Hx Hy.
  rewrite Qle_bool_iff, Hx, Hy. reflexivity.
Qed.

Lemma le_of_Z (a b : Z) : le (of_Z a) (of_Z b) = (a <=? b)%Z.
Proof.
  apply eq_true_iff_eq.
  rewrite (le_fin _ _ _ _ (fin_val_of_Z a) (fin_val_of_Z b)).
  rewrite <- Zle_Qle. symmetry. apply Z.leb_le.
Qed.

Lemma lt_of_Z (a b : Z) : lt (of_Z a) (of_Z b) = (a <? b)%Z.
Proof.
  apply eq_true_iff_eq.
  rewrite (lt_fin _ _ _ _ (fin_val_of_Z a) (fin_val_of_Z b)).
  rewrite <- Zlt_Qlt. symmetry. apply Z.ltb_lt.
Qed.

(** [Math.min] of two finite numbers is the smaller one; it is the second
    argument itself unless the first is strictly below it. *)
Lemma min_fin (x y : number) (p q : Q) :
  fin_val x p -> fin_val y q ->
  (p < q /\ Math_min x y = x) \/ (q <= p /\ Math_min x y = y).
Proof.
  intros Hx Hy.
  pose proof (lt_fin _ _ _ _ Hx Hy) as L1.
  pose proof (lt_fin _ _ _ _ Hy Hx) as L2.
  destruct x, y; simpl in Hx, Hy; try tauto.
  unfold Math_min.
  destruct (lt (Fin q0) (Fin q1)) eqn:E1.
  - left. split; [apply L1; reflexivity | reflexivity].
  - right. split.
    + apply Qnot_lt_le. intro C. apply L1 in C. congruence.
    + destruct (lt (Fin q1) (Fin q0)); reflexivity.
Qed.

Lemma round_fin_nonneg (x : number) (q : Q) :
  fin_val x q -> 0 <= q -> Math_round x = of_Z (Qfloor (q + (1#2))).
Proof.
  destruct x as [| |  |q0]; try (simpl; tauto).
  unfold fin_val, Math_round. intros H L.
  assert (E : Qlt_bool q0 0 = false).
  { apply Qlt_bool_false_iff. rewrite H. exact L. }
  rewrite E, andb_false_r. f_equal.
  apply Qfloor_comp. rewrite H. reflexivity.
Qed.

Lemma floor_fin (x : number) (q : Q) :
  fin_val x q -> Math_floor x = of_Z (Qfloor q).
Proof.
  destruct x as [| |  |q0]; try (simpl; tauto).
  unfold fin_val, Math_floor. intros H. f_equal.
  apply Qfloor_comp. exact H.
Qed.

End JSFacts.

(* ------------------------------------------------------------------ *)
(** ** The classifier *)
(* ------------------------------------------------------------------ *)

Import RiskCalculator.

Lemma le_trans_number (x y z : JS.number) :
  JS.le x y = true -> JS.le y z = true -> JS.le x z = true.
Proof.
  destruct x as [|a| |p], y as [|b| |q], z as [|c| |r]; simpl;
    try congruence; try (destruct a, b; simpl; congruence);
    try (destruct b, c; simpl; congruence);
    try (destruct a, c; simpl; congruence);
    try (destruct b; simpl; congruence);
    rewrite ?Qle_bool_iff; intros H1 H2;
    try reflexivity; try (eapply Qle_trans; eassumption).
Qed.

Lemma level_rank_classify (x : JS.number) :
  level_rank (fst (fst (classify x))) =
  Some (if JS.ge x (JS.of_Z 75) then 3
        else if JS.ge x (JS.of_Z 50) then 2
        else if JS.ge x (JS.of_Z 25) then 1 else 0)%nat.
Proof.
  unfold classify.
  destruct (JS.ge x (JS.of_Z 75)); [reflexivity|].
  destruct (JS.ge x (JS.of_Z 50)); [reflexivity|].
  destruct (JS.ge x (JS.of_Z 25)); reflexivity.
Qed.

Lemma ge_threshold_mono (a b : JS.number) (t : Z) :
  JS.ge a b = true -> JS.ge b (JS.of_Z t) = true -> JS.ge a (JS.of_Z t) = true.
Proof.
  unfold JS.ge. intros H1 H2. eapply le_trans_number; eassumption.
Qed.

(** C1.  An integer score between 0 and 100 gets its level, recommendation
    and approval from the first of the inclusive lower bounds 75, 50, 25 it
    reaches: critical, high, medium, and low below 25. *)
Theorem classify_by_thresholds (s : Z) (H : (0 <= s <= 100)%Z) :
  ((75 <= s)%Z ->
     classify (JS.of_Z s) =
       ("critical",
        "Deploy during maintenance window with full team availability",
        "VP approval required")) /\
  ((50 <= s < 75)%Z ->
     classify (JS.of_Z s) =
       ("high",
        "Deploy during low-traffic hours with rollback plan ready",
        "Senior engineer approval required")) /\
  ((25 <= s < 50)%Z ->
     classify (JS.of_Z s) =
       ("medium",
        "Standard deployment process with monitoring",
        "Peer review required")) /\
  ((s < 25)%Z ->
     classify (JS.of_Z s) =
       ("low", "Safe to deploy anytime", "Standard review process")).
Proof.
  unfold classify, JS.ge. rewrite !JSFacts.le_of_Z.
  repeat split; intros B;
    destruct (Z.leb_spec 75 s); try lia; try reflexivity;
    destruct (Z.leb_spec 50 s); try lia; try reflexivity;
    destruct (Z.leb_spec 25 s); try lia; reflexivity.
Qed.

Lemma classify_by_thresholds_witness :
  (0 <= 80 <= 100)%Z /\
  classify (JS.of_Z 80) =
    ("critical",
     "Deploy during maintenance window with full team availability",
     "VP approval required").
Proof.
  split; [lia|].
  apply (classify_by_thresholds 80); lia.
Defined.

(** C7.  The level is a monotone total function of the score: a score that
    is at least another one gets a level that is at least the other's, in
    the order low < medium < high < critical. *)
Theorem level_monotone (a b : JS.number) (H : JS.ge a b = true) :
  exists ra rb,
    level_rank (fst (fst (classify a))) = Some ra /\
    level_rank (fst (fst (classify b))) = Some rb /\
    (rb <= ra)%nat.
Proof.
  rewrite !level_rank_classify. do 2 eexists. split; [reflexivity|].
  split; [reflexivity|].
  pose proof (ge_threshold_mono a b 75 H) as M75.
  pose proof (ge_threshold_mono a b 50 H) as M50.
  pose proof (ge_threshold_mono a b 25 H) as M25.
  destruct (JS.ge b (JS.of_Z 75)).
  { rewrite M75 by reflexivity. lia. }
  destruct (JS.ge b (JS.of_Z 50)).
  { rewrite M50 by reflexivity. destruct (JS.ge a (JS.of_Z 75)); lia. }
  destruct (JS.ge b (JS.of_Z 25)).
  { rewrite M25 by reflexivity.
    destruct (JS.ge a (JS.of_Z 75)); [lia|].
    destruct (JS.ge a (JS.of_Z 50)); lia. }
  lia.
Qed.

Lemma level_monotone_witness :
  JS.ge (JS.of_Z 65) (JS.of_Z 30) = true /\
  exists ra rb,
    level_rank (fst (fst (classify (JS.of_Z 65)))) = Some ra /\
    level_rank (fst (fst (classify (JS.of_Z 30)))) = Some rb /\
    (rb <= ra)%nat.
Proof.
  split; [reflexivity|].
  apply (level_monotone (JS.of_Z 65) (JS.of_Z 30)). reflexivity.
Defined.

(* ------------------------------------------------------------------ *)
(** ** What a run returns *)
(* ------------------------------------------------------------------ *)

Section RunFacts.

Variable fraction_toString : Q -> string.

(** [run] never takes its [catch]: it completes, and its outputs are the
    capped score of the four factors and the classification of that score. *)
Lemma run_completed (inputs : Inputs) (prContext : option PullRequest)
    (now : string) (g : Rand.rng) :
  let filesThreshold := Str.parseInt (files_changed_threshold inputs) in
  let linesThreshold := Str.parseInt (lines_changed_threshold inputs) in
  let criticalPaths := parse_critical_paths (critical_paths inputs) in
  let m := fst (get_metrics prContext g) in
  let st := fst (score_factors fraction_toString filesThreshold linesThreshold
                   criticalPaths m (snd (get_metrics prContext g))) in
  let score := cap (riskScore st) in
  exists out,
    fst (run fraction_toString inputs prContext now g) = Completed out /\
    risk_score out = JS.toString fraction_toString score /\
    risk_level out = fst (fst (classify score)) /\
    recommendation out = snd (fst (classify score)) /\
    a_riskScore (analysis out) = score /\
    a_riskLevel (analysis out) = fst (fst (classify score)) /\
    a_factors (analysis out) = factors st /\
    a_metrics (analysis out) = m /\
    a_approvalRequired (analysis out) = snd (classify score).
Proof.
  cbv zeta. unfold run, Rand.bind.
  destruct (get_metrics prContext g) as [m g1]. cbn [fst snd].
  destruct (score_factors _ _ _ _ m g1) as [st g2]. cbn [fst snd].
  destruct (classify (cap (riskScore st))) as [[lvl rec] app].
  unfold Rand.ret. cbn [fst snd].
  eexists. split; [reflexivity|]. cbn. repeat split; reflexivity.
Qed.

(** The score accumulated by the four factor blocks. *)
Lemma score_factors_unfold (filesThreshold linesThreshold : JS.number)
    (criticalPaths : list string) (m : Metrics) (g : Rand.rng) :
  fst (score_factors fraction_toString filesThreshold linesThreshold
         criticalPaths m g) =
  deletion_step fraction_toString (additions m) (deletions m)
    (critical_step (fst (touchesCritical criticalPaths g))
       (lines_step (totalLines m) linesThreshold
          (files_step (filesChanged m) filesThreshold
             {| riskScore := JS.of_Z 0; factors := [] |}))).
Proof.
  unfold score_factors, Rand.bind.
  destruct (touchesCritical criticalPaths g) as [t g1]. reflexivity.
Qed.

Lemma riskScore_critical_step (t : bool) (st : Scoring) :
  riskScore st = JS.NaN -> riskScore (critical_step t st) = JS.NaN.
Proof.
  intro H. unfold critical_step. destruct t; cbn [riskScore]; rewrite H; reflexivity.
Qed.

Lemma riskScore_deletion_step (a d : JS.number) (st : Scoring) :
  riskScore st = JS.NaN ->
  riskScore (deletion_step fraction_toString a d st) = JS.NaN.
Proof.
  intro H. unfold deletion_step.
  destruct (JS.gt _ _); cbn [riskScore]; rewrite ?H; reflexivity.
Qed.

Lemma add_NaN_r (x : JS.number) : JS.add x JS.NaN = JS.NaN.
Proof. destruct x; reflexivity. Qed.

Lemma filesFactor_NaN (filesChanged : JS.number) :
  filesFactor filesChanged JS.NaN = JS.NaN.
Proof. unfold filesFactor. destruct filesChanged; reflexivity. Qed.

Lemma linesFactor_NaN (totalLines : JS.number) :
  linesFactor totalLines JS.NaN = JS.NaN.
Proof. unfold linesFactor. destruct totalLines; reflexivity. Qed.

(** C10.  A threshold input that [parseInt] turns into NaN (the empty
    string, a word) raises nothing: the contribution of that threshold's
    factor is NaN, the score is NaN and is written as the string NaN, every
    comparison fails and the level is low with its recommendation. *)
Theorem nan_threshold_yields_low (inputs : Inputs)
    (prContext : option PullRequest) (now : string) (g : Rand.rng)
    (H : Str.parseInt (files_changed_threshold inputs) = JS.NaN \/
         Str.parseInt (lines_changed_threshold inputs) = JS.NaN) :
  Str.parseInt "" = JS.NaN /\ Str.parseInt "twenty" = JS.NaN /\
  exists out,
    fst (run fraction_toString inputs prContext now g) = Completed out /\
    (Str.parseInt (files_changed_threshold inputs) = JS.NaN ->
       filesFactor (filesChanged (a_metrics (analysis out)))
         (Str.parseInt (files_changed_threshold inputs)) = JS.NaN) /\
    (Str.parseInt (lines_changed_threshold inputs) = JS.NaN ->
       linesFactor (totalLines (a_metrics (analysis out)))
         (Str.parseInt (lines_changed_threshold inputs)) = JS.NaN) /\
    a_riskScore (analysis out) = JS.NaN /\
    risk_score out = "NaN" /\
    risk_level out = "low" /\
    recommendation out = "Safe to deploy anytime" /\
    a_approvalRequired (analysis out) = "Standard review process" /\
    warning out = None.
Proof.
  split; [reflexivity|]. split; [reflexivity|].
  destruct (run_completed inputs prContext now g)
    as (out & Hrun & Hs & Hl & Hr & Ha & _ & _ & Hm & Hp).
  assert (N : riskScore
    (fst (score_factors fraction_toString
            (Str.parseInt (files_changed_threshold inputs))
            (Str.parseInt (lines_changed_threshold inputs))
            (parse_critical_paths (critical_paths inputs))
            (fst (get_metrics prContext g))
            (snd (get_metrics prContext g)))) = JS.NaN).
  { rewrite score_factors_unfold.
    apply riskScore_deletion_step, riskScore_critical_step.
    unfold lines_step, files_step. cbn [riskScore].
    destruct H as [H|H]; rewrite H.
    - rewrite filesFactor_NaN. reflexivity.
    - rewrite linesFactor_NaN. apply add_NaN_r. }
  rewrite N in Hs, Hl, Hr, Ha, Hp.
  exists out. split; [exact Hrun|].
  split; [intro E; rewrite E; apply filesFactor_NaN|].
  split; [intro E; rewrite E; apply linesFactor_NaN|].
  split; [exact Ha|]. split; [exact Hs|]. split; [exact Hl|].
  split; [exact Hr|]. split; [exact Hp|].
  revert Hrun. unfold run, Rand.bind.
  destruct (get_metrics prContext g) as [m g1]. cbn [fst snd] in N.
  destruct (score_factors _ _ _ _ m g1) as [st g2]. cbn [fst] in N.
  rewrite N. cbn. intro E. injection E as <-. reflexivity.
Qed.

End RunFacts.

(* ------------------------------------------------------------------ *)
(** ** The metrics *)
(* ------------------------------------------------------------------ *)

Lemma valid_tail (g : Rand.rng) :
  Rand.valid g -> Rand.valid (fun n => g (S n)).
Proof. intros V n. apply V. Qed.

Lemma valid_constant_half : Rand.valid (Rand.constant (1#2)).
Proof. intro n. unfold Rand.constant. split; [discriminate | reflexivity]. Qed.

Lemma Qfloor_range (x : Q) (n : Z) :
  0 <= x -> x < inject_Z n -> (0 <= Qfloor x < n)%Z.
Proof.
  intros L U. split.
  - change 0%Z with (Qfloor 0). apply Qfloor_resp_le. exact L.
  - rewrite Zlt_Qlt. eapply Qle_lt_trans; [apply Qfloor_le | exact U].
Qed.

(** [Math.floor(Math.random() * n) + k] is an integer of [k, k + n - 1] and
    uses one draw. *)
Lemma random_int_range (n k : Z) (g : Rand.rng) :
  Rand.valid g -> (0 < n)%Z ->
  exists z, random_int n k g = (JS.of_Z z, fun i => g (S i)) /\
            (k <= z <= k + n - 1)%Z.
Proof.
  intros V Hn. destruct (V 0%nat) as [L U].
  unfold random_int, Rand.bind, Rand.Math_random, Rand.ret.
  pose proof (JSFacts.finite_false (g 0%nat)) as F.
  assert (Ln : 0 <= inject_Z n).
  { change 0 with (inject_Z 0). rewrite <- Zle_Qle. lia. }
  pose proof (JSFacts.mul_fin_nonneg _ _ _ _ F (JSFacts.fin_val_of_Z n) L Ln) as P.
  rewrite (JSFacts.floor_fin _ _ P), JSFacts.add_of_Z.
  eexists. split; [reflexivity|].
  assert (R : (0 <= Qfloor (g 0%nat * inject_Z n) < n)%Z).
  { apply Qfloor_range.
    - apply Qmult_le_0_compat; assumption.
    - assert (0 < inject_Z n).
      { change 0 with (inject_Z 0). rewrite <- Zlt_Qlt. exact Hn. }
      nra. }
  lia.
Qed.

(** [v || Math.floor(Math.random() * n) + k]: a present, non-zero [v] is
    kept and no draw is made; an absent or zero [v] is replaced. *)
Lemma or_else_spec (v : option Z) (n k : Z) (g : Rand.rng) :
  Rand.valid g -> (0 < n)%Z ->
  exists z, fst (or_else v (random_int n k) g) = JS.of_Z z /\
    Rand.valid (snd (or_else v (random_int n k) g)) /\
    ((v = Some z /\ z <> 0%Z /\ snd (or_else v (random_int n k) g) = g) \/
     (falsy v /\ (k <= z <= k + n - 1)%Z)).
Proof.
  intros V Hn.
  destruct (random_int_range n k g V Hn) as (r & Er & Rr).
  destruct v as [z|]; cbn [or_else].
  - destruct (Z.eqb_spec z 0) as [->|N].
    + rewrite Er. exists r. cbn [fst snd].
      split; [reflexivity|]. split; [apply valid_tail; exact V|].
      right. split; [right; reflexivity | exact Rr].
    + exists z. unfold Rand.ret. cbn [fst snd].
      split; [reflexivity|]. split; [exact V|]. left. auto.
  - rewrite Er. exists r. cbn [fst snd].
    split; [reflexivity|]. split; [apply valid_tail; exact V|].
    right. split; [left; reflexivity | exact Rr].
Qed.

(** The metrics of a run: integers, with [totalLines = additions +
    deletions]; each is the payload's value when that is present and
    non-zero, and otherwise a draw from its range. *)
Lemma get_metrics_spec (prContext : option PullRequest) (g : Rand.rng) :
  Rand.valid g ->
  exists fc a d,
    fst (get_metrics prContext g) =
      {| filesChanged := JS.of_Z fc; additions := JS.of_Z a;
         deletions := JS.of_Z d; totalLines := JS.of_Z (a + d) |} /\
    (optional_field prContext changed_files = Some fc /\ fc <> 0%Z \/
     falsy (optional_field prContext changed_files) /\ (1 <= fc <= 30)%Z) /\
    (optional_field prContext pr_additions = Some a /\ a <> 0%Z \/
     falsy (optional_field prContext pr_additions) /\ (50 <= a <= 449)%Z) /\
    (optional_field prContext pr_deletions = Some d /\ d <> 0%Z \/
     falsy (optional_field prContext pr_deletions) /\ (20 <= d <= 219)%Z).
Proof.
  intro V. unfold get_metrics, Rand.bind.
  destruct (or_else_spec (optional_field prContext changed_files) 30 1 g V)
    as (fc & E1 & V1 & C1); [lia|].
  destruct (or_else _ (random_int 30 1) g) as [x1 g1]. cbn [fst snd] in *.
  destruct (or_else_spec (optional_field prContext pr_additions) 400 50 g1 V1)
    as (a & E2 & V2 & C2); [lia|].
  destruct (or_else _ (random_int 400 50) g1) as [x2 g2]. cbn [fst snd] in *.
  destruct (or_else_spec (optional_field prContext pr_deletions) 200 20 g2 V2)
    as (d & E3 & V3 & C3); [lia|].
  destruct (or_else _ (random_int 200 20) g2) as [x3 g3]. cbn [fst snd] in *.
  subst x1 x2 x3. exists fc, a, d. unfold Rand.ret. cbn [fst].
  rewrite JSFacts.add_of_Z.
  split; [reflexivity|].
  split; [destruct C1 as [(?&?&?)|(?&?)]; [left; auto | right; split; [assumption | lia]]|].
  split; [destruct C2 as [(?&?&?)|(?&?)]; [left; auto | right; split; [assumption | lia]]|].
  destruct C3 as [(?&?&?)|(?&?)]; [left; auto | right; split; [assumption | lia]].
Qed.

(** With all three fields present and non-zero no draw is made. *)
Lemma get_metrics_explicit (prContext : option PullRequest) (g : Rand.rng) :
  explicit_payload prContext ->
  exists fc a d,
    optional_field prContext changed_files = Some fc /\
    optional_field prContext pr_additions = Some a /\
    optional_field prContext pr_deletions = Some d /\
    get_metrics prContext g =
      ({| filesChanged := JS.of_Z fc; additions := JS.of_Z a;
          deletions := JS.of_Z d; totalLines := JS.of_Z (a + d) |}, g).
Proof.
  intros (p & -> & (fc & E1 & N1) & (a & E2 & N2) & (d & E3 & N3)).
  exists fc, a, d. cbn [optional_field].
  split; [exact E1|]. split; [exact E2|]. split; [exact E3|].
  unfold get_metrics, Rand.bind. cbn [optional_field].
  rewrite E1, E2, E3. cbn [or_else].
  apply Z.eqb_neq in N1, N2, N3. rewrite N1, N2, N3.
  unfold Rand.ret. rewrite JSFacts.add_of_Z. reflexivity.
Qed.

(** C6.  A deletions field that is present with the value 0 is not used
    unchanged: [0 || ...] takes the random branch, here 0.5 * 200 + 20, and
    [totalLines] is computed from the replacement. *)
Theorem present_zero_deletions_replaced :
  fst (get_metrics
         (Some {| changed_files := Some 3%Z; pr_additions := Some 10%Z;
                  pr_deletions := Some 0%Z |})
         (Rand.constant (1#2))) =
  {| filesChanged := JS.of_Z 3; additions := JS.of_Z 10;
     deletions := JS.of_Z 120; totalLines := JS.of_Z 130 |}.
Proof. reflexivity. Qed.

(* ------------------------------------------------------------------ *)
(** ** The four factors *)
(* ------------------------------------------------------------------ *)

Lemma inject_Z_nonneg (z : Z) : (0 <= z)%Z -> 0 <= inject_Z z.
Proof. intro H. change 0 with (inject_Z 0). rewrite <- Zle_Qle. exact H. Qed.

Lemma inject_Z_pos (z : Z) : (0 < z)%Z -> 0 < inject_Z z.
Proof. intro H. change 0 with (inject_Z 0). rewrite <- Zlt_Qlt. exact H. Qed.

(** [Math.min((x / y) * w, w)] for a non-negative [x] and a positive [y]:
    a finite value of [0, w], and [w] itself as soon as the product reaches
    it. *)
Lemma capped_ratio (x y : JS.number) (p q : Q) (w : Z) :
  fin_val x p -> fin_val y q -> 0 <= p -> 0 < q -> (0 < w)%Z ->
  exists c,
    fin_val (JS.Math_min (JS.mul (JS.div x y) (JS.of_Z w)) (JS.of_Z w)) c /\
    0 <= c /\ c <= inject_Z w /\
    ((p / q * inject_Z w < inject_Z w /\ c == p / q * inject_Z w) \/
     (inject_Z w <= p / q * inject_Z w /\
      JS.Math_min (JS.mul (JS.div x y) (JS.of_Z w)) (JS.of_Z w) = JS.of_Z w)).
Proof.
  intros Hx Hy Lp Lq Hw.
  pose proof (JSFacts.div_fin_pos _ _ _ _ Hx Hy Lp Lq) as D.
  assert (Lr : 0 <= p / q).
  { apply Qle_shift_div_l; [exact Lq | rewrite Qmult_0_l; exact Lp]. }
  pose proof (inject_Z_nonneg w (Z.lt_le_incl _ _ Hw)) as Lw.
  pose proof (JSFacts.mul_fin_nonneg _ _ _ _ D (JSFacts.fin_val_of_Z w) Lr Lw) as M.
  destruct (JSFacts.min_fin _ _ _ _ M (JSFacts.fin_val_of_Z w)) as [[L E]|[L E]];
    rewrite E.
  - exists (p / q * inject_Z w). split; [exact M|].
    split; [apply Qmult_le_0_compat; assumption|].
    split; [apply Qlt_le_weak; exact L|].
    left. split; [exact L | reflexivity].
  - exists (inject_Z w). split; [apply JSFacts.fin_val_of_Z|].
    split; [exact Lw|]. split; [apply Qle_refl|].
    right. split; [exact L | reflexivity].
Qed.

Lemma min_of_Z (a b : Z) :
  JS.Math_min (JS.of_Z a) (JS.of_Z b) = JS.of_Z (Z.min a b).
Proof.
  destruct (JSFacts.min_fin _ _ _ _ (JSFacts.fin_val_of_Z a)
              (JSFacts.fin_val_of_Z b)) as [[L E]|[L E]]; rewrite E; f_equal.
  - rewrite <- Zlt_Qlt in L. lia.
  - rewrite <- Zle_Qle in L. lia.
Qed.

(** [Math.min(Math.round(x), 100)] for a finite [x] of [0, 100]. *)
Lemma cap_range (x : JS.number) (r : Q) :
  fin_val x r -> 0 <= r -> r <= 100 ->
  exists s, cap x = JS.of_Z s /\ (0 <= s <= 100)%Z /\
            s = Z.min (Qfloor (r + (1#2))) 100.
Proof.
  intros H L U. unfold cap.
  rewrite (JSFacts.round_fin_nonneg _ _ H L), min_of_Z.
  eexists. split; [reflexivity|]. split; [|reflexivity].
  assert (0 <= Qfloor (r + (1 # 2)))%Z.
  { change 0%Z with (Qfloor 0). apply Qfloor_resp_le. lra. }
  lia.
Qed.

Section Factors.

Variable fraction_toString : Q -> string.

Lemma riskScore_score_factors (filesThreshold linesThreshold : JS.number)
    (criticalPaths : list string) (m : Metrics) (g : Rand.rng) :
  riskScore (fst (score_factors fraction_toString filesThreshold
                    linesThreshold criticalPaths m g)) =
  let r2 := JS.add (JS.add (JS.of_Z 0) (filesFactor (filesChanged m) filesThreshold))
                   (linesFactor (totalLines m) linesThreshold) in
  let r3 := if fst (touchesCritical criticalPaths g)
            then JS.add r2 (JS.of_Z 25) else r2 in
  if JS.gt (deletionRatio (additions m) (deletions m)) (JS.Fin (1#2))
  then JS.add r3 (JS.of_Z 10) else r3.
Proof.
  rewrite score_factors_unfold. unfold deletion_step, critical_step.
  destruct (JS.gt _ _); destruct (fst (touchesCritical criticalPaths g));
    reflexivity.
Qed.

(** The contributions and the capped score for metrics that are
    non-negative integers, under positive thresholds. *)
Lemma score_factors_bounds (m : Metrics) (fc a d tf tl : Z)
    (paths : list string) (g : Rand.rng) :
  filesChanged m = JS.of_Z fc -> additions m = JS.of_Z a ->
  deletions m = JS.of_Z d -> totalLines m = JS.of_Z (a + d) ->
  (0 <= fc)%Z -> (0 <= a)%Z -> (0 <= d)%Z -> (0 < tf)%Z -> (0 < tl)%Z ->
  let st := fst (score_factors fraction_toString (JS.of_Z tf) (JS.of_Z tl)
                   paths m g) in
  exists (qf ql qc qd : Q) (s : Z),
    fin_val (filesFactor (filesChanged m) (JS.of_Z tf)) qf /\
    0 <= qf /\ qf <= 30 /\
    fin_val (linesFactor (totalLines m) (JS.of_Z tl)) ql /\
    0 <= ql /\ ql <= 35 /\
    qc = (if fst (touchesCritical paths g) then 25 else 0) /\
    qd = (if JS.gt (deletionRatio (additions m) (deletions m))
                   (JS.Fin (1#2)) then 10 else 0) /\
    fin_val (riskScore st) (qf + ql + qc + qd) /\
    cap (riskScore st) = JS.of_Z s /\ (0 <= s <= 100)%Z /\
    (qf == 30 -> ql == 35 -> qc == 25 -> qd == 10 -> s = 100%Z).
Proof.
  intros Efc Ea Ed T Hfc Ha Hd Htf Htl st.
  destruct (capped_ratio (JS.of_Z fc) (JS.of_Z tf) _ _ 30
              (JSFacts.fin_val_of_Z fc) (JSFacts.fin_val_of_Z tf)
              (inject_Z_nonneg _ Hfc) (inject_Z_pos _ Htf))
    as (qf & Ff & Lf & Uf & _); [lia|].
  destruct (capped_ratio (JS.of_Z (a + d)) (JS.of_Z tl) _ _ 35
              (JSFacts.fin_val_of_Z (a + d)) (JSFacts.fin_val_of_Z tl)
              (inject_Z_nonneg _ (Z.add_nonneg_nonneg _ _ Ha Hd))
              (inject_Z_pos _ Htl))
    as (ql & Fl & Ll & Ul & _); [lia|].
  fold (filesFactor (JS.of_Z fc) (JS.of_Z tf)) in Ff.
  fold (linesFactor (JS.of_Z (a + d)) (JS.of_Z tl)) in Fl.
  rewrite <- T in Fl. rewrite <- Efc in Ff.
  set (qc := if fst (touchesCritical paths g) then 25 else 0 : Q).
  set (qd := if JS.gt (deletionRatio (additions m) (deletions m))
                      (JS.Fin (1#2)) then 10 else 0 : Q).
  assert (R : fin_val (riskScore st) (qf + ql + qc + qd)).
  { subst st. rewrite riskScore_score_factors. cbv zeta.
    pose proof (JSFacts.add_fin _ _ _ _
      (JSFacts.add_fin _ _ _ _ (JSFacts.fin_val_of_Z 0) Ff) Fl) as R2.
    set (r2 := JS.add _ (linesFactor _ _)) in *.
    assert (R3 : fin_val (if fst (touchesCritical paths g)
                          then JS.add r2 (JS.of_Z 25) else r2)
                         (qf + ql + qc)).
    { subst qc. destruct (fst (touchesCritical paths g)).
      - eapply JSFacts.fin_val_eq;
          [exact (JSFacts.add_fin _ _ _ _ R2 (JSFacts.fin_val_of_Z 25))|].
        simpl inject_Z. ring.
      - eapply JSFacts.fin_val_eq; [exact R2|]. simpl inject_Z. ring. }
    subst qd.
    destruct (JS.gt (deletionRatio (additions m) (deletions m)) (JS.Fin (1#2))).
    - eapply JSFacts.fin_val_eq;
        [exact (JSFacts.add_fin _ _ _ _ R3 (JSFacts.fin_val_of_Z 10))|].
      simpl inject_Z. ring.
    - eapply JSFacts.fin_val_eq; [exact R3|]. ring. }
  assert (Bc : 0 <= qc /\ qc <= 25).
  { subst qc. destruct (fst (touchesCritical paths g)); split; discriminate. }
  assert (Bd : 0 <= qd /\ qd <= 10).
  { subst qd. destruct (JS.gt _ _); split; discriminate. }
  destruct Bc as [Lc Uc], Bd as [Ld Ud].
  change (inject_Z 30) with 30 in Uf. change (inject_Z 35) with 35 in Ul.
  destruct (cap_range _ _ R) as (s & Es & Bs & Vs); [lra | lra |].
  exists qf, ql, qc, qd, s.
  split; [exact Ff|]. split; [exact Lf|]. split; [exact Uf|].
  split; [exact Fl|]. split; [exact Ll|]. split; [exact Ul|].
  split; [reflexivity|]. split; [reflexivity|]. split; [exact R|].
  split; [exact Es|]. split; [exact Bs|].
  intros E1 E2 E3 E4. rewrite Vs.
  assert (E : qf + ql + qc + qd + (1#2) == 201#2).
  { rewrite E1, E2, E3, E4. reflexivity. }
  rewrite (Qfloor_comp _ _ E). reflexivity.
Qed.


End Factors.

Section FactorSequence.

Variable fraction_toString : Q -> string.

Lemma touchesCritical_spec (criticalPaths : list string) (g : Rand.rng) :
  fst (touchesCritical criticalPaths g) = true <->
  criticalPaths <> [] /\ 3#5 < g 0%nat.
Proof.
  unfold touchesCritical. destruct criticalPaths as [|p ps]; cbn [List.length Nat.ltb Nat.leb].
  - cbn. split; [discriminate | intros [N _]; congruence].
  - unfold Rand.bind, Rand.Math_random, Rand.ret. cbn [fst]. unfold JS.gt.
    assert (F : fin_val (JS.Fin (3#5)) (3#5)) by (simpl; reflexivity).
    rewrite (JSFacts.lt_fin _ _ _ _ F (JSFacts.finite_false (g 0%nat))).
    split; [intro L; split; [discriminate | exact L] | intros [_ L]; exact L].
Qed.

Lemma deletionRatio_fin (a d : Z) :
  (0 <= a)%Z -> (0 <= d)%Z ->
  fin_val (deletionRatio (JS.of_Z a) (JS.of_Z d))
          (inject_Z d / inject_Z (a + 1)).
Proof.
  intros Ha Hd. unfold deletionRatio. rewrite JSFacts.add_of_Z.
  apply JSFacts.div_fin_pos;
    [apply JSFacts.fin_val_of_Z | apply JSFacts.fin_val_of_Z
    | apply inject_Z_nonneg; exact Hd | apply inject_Z_pos; lia].
Qed.

Lemma ratio_above_half (a d : Z) :
  (0 <= a)%Z -> (1#2 < inject_Z d / inject_Z (a + 1) <-> (a + 1 < 2 * d)%Z).
Proof.
  intro Ha. destruct (a + 1)%Z as [|p|p] eqn:E; try lia.
  unfold Qlt, Qdiv, Qmult, Qinv, inject_Z. cbn [Qnum Qden]. lia.
Qed.

Lemma deletion_gt_iff (a d : Z) :
  (0 <= a)%Z -> (0 <= d)%Z ->
  (JS.gt (deletionRatio (JS.of_Z a) (JS.of_Z d)) (JS.Fin (1#2)) = true <->
   1#2 < inject_Z d / inject_Z (a + 1)).
Proof.
  intros Ha Hd. unfold JS.gt.
  assert (F : fin_val (JS.Fin (1#2)) (1#2)) by (simpl; reflexivity).
  apply (JSFacts.lt_fin _ _ _ _ F (deletionRatio_fin a d Ha Hd)).
Qed.

Lemma factors_before_deletion (filesThreshold linesThreshold : JS.number)
    (criticalPaths : list string) (m : Metrics) (g : Rand.rng) :
  exists f1 f2,
    name f1 = "Files Changed" /\ name f2 = "Lines Changed" /\
    factors (before_deletion filesThreshold linesThreshold criticalPaths m g) =
      [f1; f2; critical_factor (fst (touchesCritical criticalPaths g))].
Proof.
  unfold before_deletion, critical_step, lines_step, files_step.
  destruct (fst (touchesCritical criticalPaths g)); cbn [factors app];
    do 2 eexists; (split; [|split; [|reflexivity]]); reflexivity.
Qed.


End FactorSequence.

(* ------------------------------------------------------------------ *)
(** ** The critical-path factor and repeated runs *)
(* ------------------------------------------------------------------ *)

Section CriticalPaths.

Variable fraction_toString : Q -> string.

(** C3, as the code has it.  The Critical Paths factor is always the third
    factor, and the only one of that name, whether or not critical paths are
    configured.  Its score is 25 with impact high, and 25 is added to the
    score, exactly when the list is non-empty and the [Math.random] draw
    exceeds 0.6; otherwise its score is 0 with impact none and the score is
    left as it was.  No changed path is looked at. *)
Theorem critical_factor_always_present
    (filesThreshold linesThreshold : JS.number) (criticalPaths : list string)
    (m : Metrics) (g : Rand.rng) :
  let st := fst (score_factors fraction_toString filesThreshold
                   linesThreshold criticalPaths m g) in
  let prior := lines_step (totalLines m) linesThreshold
                 (files_step (filesChanged m) filesThreshold
                    {| riskScore := JS.of_Z 0; factors := [] |}) in
  let before := before_deletion filesThreshold linesThreshold
                  criticalPaths m g in
  exists f1 f2 cf rest,
    factors st = f1 :: f2 :: cf :: rest /\
    name cf = "Critical Paths" /\
    has_factor "Critical Paths" [f1; f2] = false /\
    has_factor "Critical Paths" rest = false /\
    (criticalPaths <> [] /\ 3#5 < g 0%nat ->
       score cf = JS.of_Z 25 /\ impact cf = "high" /\
       riskScore before = JS.add (riskScore prior) (JS.of_Z 25)) /\
    (~ (criticalPaths <> [] /\ 3#5 < g 0%nat) ->
       score cf = JS.of_Z 0 /\ impact cf = "none" /\
       riskScore before = riskScore prior).
Proof.
  intros st prior before.
  destruct (factors_before_deletion filesThreshold linesThreshold
              criticalPaths m g) as (f1 & f2 & N1 & N2 & Fb).
  fold before in Fb.
  pose proof (touchesCritical_spec criticalPaths g) as T.
  assert (E : st = deletion_step fraction_toString (additions m)
                     (deletions m) before).
  { subst st before. rewrite score_factors_unfold. reflexivity. }
  assert (B : riskScore before =
              if fst (touchesCritical criticalPaths g)
              then JS.add (riskScore prior) (JS.of_Z 25)
              else riskScore prior).
  { subst before prior. unfold before_deletion, critical_step.
    destruct (fst (touchesCritical criticalPaths g)); reflexivity. }
  assert (S : exists rest, factors st =
                f1 :: f2 :: critical_factor
                  (fst (touchesCritical criticalPaths g)) :: rest /\
                has_factor "Critical Paths" rest = false).
  { rewrite E. unfold deletion_step.
    destruct (JS.gt _ _); cbn [factors]; rewrite Fb.
    - eexists. split; [reflexivity|]. reflexivity.
    - exists []. split; reflexivity. }
  destruct S as (rest & Fs & Nr).
  exists f1, f2, (critical_factor (fst (touchesCritical criticalPaths g))), rest.
  split; [exact Fs|].
  split; [destruct (fst (touchesCritical criticalPaths g)); reflexivity|].
  split; [unfold has_factor; cbn [existsb]; rewrite N1, N2; reflexivity|].
  split; [exact Nr|].
  rewrite B. split.
  - intro C. apply T in C. rewrite C. repeat split; reflexivity.
  - intro C. destruct (fst (touchesCritical criticalPaths g)).
    + exfalso. apply C, T. reflexivity.
    + repeat split; reflexivity.
Qed.

(** C4, as the code has it.  Two runs on the same inputs and the same
    payload, whose three fields are present and non-zero, give the same
    score, level, recommendation and factors when no critical path is
    configured, or when the draws made for the critical-path factor fall on
    the same side of 0.6.  The timestamps are free. *)
Theorem rerun_identical (inputs : Inputs) (prContext : option PullRequest)
    (now1 now2 : string) (g1 g2 : Rand.rng)
    (E : explicit_payload prContext)
    (S : parse_critical_paths (critical_paths inputs) = [] \/
         (3#5 < g1 0%nat <-> 3#5 < g2 0%nat)) :
  exists out1 out2,
    fst (run fraction_toString inputs prContext now1 g1) = Completed out1 /\
    fst (run fraction_toString inputs prContext now2 g2) = Completed out2 /\
    a_riskScore (analysis out1) = a_riskScore (analysis out2) /\
    risk_score out1 = risk_score out2 /\
    risk_level out1 = risk_level out2 /\
    recommendation out1 = recommendation out2 /\
    a_factors (analysis out1) = a_factors (analysis out2) /\
    a_metrics (analysis out1) = a_metrics (analysis out2).
Proof.
  destruct (run_completed fraction_toString inputs prContext now1 g1)
    as (out1 & R1 & S1 & L1 & C1 & A1 & _ & F1 & M1 & _).
  destruct (run_completed fraction_toString inputs prContext now2 g2)
    as (out2 & R2 & S2 & L2 & C2 & A2 & _ & F2 & M2 & _).
  destruct (get_metrics_explicit prContext g1 E)
    as (fc & a & d & X1 & X2 & X3 & G1).
  destruct (get_metrics_explicit prContext g2 E)
    as (fc' & a' & d' & Y1 & Y2 & Y3 & G2).
  rewrite X1 in Y1. rewrite X2 in Y2. rewrite X3 in Y3.
  injection Y1 as <-. injection Y2 as <-. injection Y3 as <-.
  rewrite G1 in S1, L1, C1, A1, F1, M1.
  rewrite G2 in S2, L2, C2, A2, F2, M2.
  cbn [fst snd] in *.
  assert (T : fst (touchesCritical (parse_critical_paths (critical_paths inputs)) g1)
            = fst (touchesCritical (parse_critical_paths (critical_paths inputs)) g2)).
  { apply eq_true_iff_eq. rewrite !touchesCritical_spec.
    destruct S as [S|S]; [rewrite S|rewrite S]; tauto. }
  rewrite score_factors_unfold in S1, L1, C1, A1, F1.
  rewrite score_factors_unfold in S2, L2, C2, A2, F2.
  rewrite T in S1, L1, C1, A1, F1.
  exists out1, out2.
  split; [exact R1|]. split; [exact R2|].
  split; [congruence|]. split; [congruence|]. split; [congruence|].
  split; [congruence|]. split; congruence.
Qed.

End CriticalPaths.

(* ------------------------------------------------------------------ *)
(** ** Thresholds that are not positive *)
(* ------------------------------------------------------------------ *)






Lemma nonneg_optional_field (prContext : option PullRequest)
    (field : PullRequest -> option Z) (z : Z) :
  (forall p, prContext = Some p -> nonneg_field (field p)) ->
  optional_field prContext field = Some z -> (0 <= z)%Z.
Proof.
  destruct prContext as [p|]; cbn [optional_field]; [|discriminate].
  intros H E. specialize (H p eq_refl). rewrite E in H. exact H.
Qed.

(** Under a payload of non-negative fields every metric is at least 1: a
    zero is replaced like an absent field. *)
Lemma get_metrics_positive (prContext : option PullRequest) (g : Rand.rng) :
  Rand.valid g -> nonneg_payload prContext ->
  exists fc a d,
    fst (get_metrics prContext g) =
      {| filesChanged := JS.of_Z fc; additions := JS.of_Z a;
         deletions := JS.of_Z d; totalLines := JS.of_Z (a + d) |} /\
    (1 <= fc)%Z /\ (1 <= a)%Z /\ (1 <= d)%Z.
Proof.
  intros V P.
  destruct (get_metrics_spec prContext g V) as (fc & a & d & E & C1 & C2 & C3).
  exists fc, a, d. split; [exact E|].
  assert (N1 : forall p, prContext = Some p -> nonneg_field (changed_files p)).
  { intros p ->. apply P. }
  assert (N2 : forall p, prContext = Some p -> nonneg_field (pr_additions p)).
  { intros p ->. apply P. }
  assert (N3 : forall p, prContext = Some p -> nonneg_field (pr_deletions p)).
  { intros p ->. apply P. }
  split; [|split].
  - destruct C1 as [[F N]|[_ R]]; [|lia].
    pose proof (nonneg_optional_field _ _ _ N1 F). lia.
  - destruct C2 as [[F N]|[_ R]]; [|lia].
    pose proof (nonneg_optional_field _ _ _ N2 F). lia.
  - destruct C3 as [[F N]|[_ R]]; [|lia].
    pose proof (nonneg_optional_field _ _ _ N3 F). lia.
Qed.

Section Runs.

Variable fraction_toString : Q -> string.


(** The score a run reports, under positive thresholds and a payload of
    non-negative fields: an integer of [0, 100], written in decimal. *)
Lemma run_score_in_range (inputs : Inputs) (prContext : option PullRequest)
    (now : string) (g : Rand.rng) (tf tl : Z) :
  Str.parseInt (files_changed_threshold inputs) = JS.of_Z tf ->
  Str.parseInt (lines_changed_threshold inputs) = JS.of_Z tl ->
  (0 < tf)%Z -> (0 < tl)%Z -> Rand.valid g -> nonneg_payload prContext ->
  exists out s,
    fst (run fraction_toString inputs prContext now g) = Completed out /\
    a_riskScore (analysis out) = JS.of_Z s /\ (0 <= s <= 100)%Z /\
    risk_score out = JS.Z_toString s.
Proof.
  intros Pf Pl Htf Htl V P.
  destruct (run_completed fraction_toString inputs prContext now g)
    as (out & R & S & _ & _ & A & _ & _ & _ & _).
  destruct (get_metrics_positive prContext g V P)
    as (fc & a & d & E & Hfc & Ha & Hd).
  rewrite Pf, Pl in S, A.
  destruct (score_factors_bounds fraction_toString
              (fst (get_metrics prContext g)) fc a d tf tl
              (parse_critical_paths (critical_paths inputs))
              (snd (get_metrics prContext g)))
    as (_ & _ & _ & _ & s & _ & _ & _ & _ & _ & _ & _ & _ & _ & Es & Bs & _);
    try (rewrite E; reflexivity); try lia.
  rewrite Es in S, A. exists out, s.
  split; [exact R|]. split; [exact A|]. split; [exact Bs|].
  rewrite S. unfold JS.toString, JS.of_Z.
  assert (I : JS.is_integer (inject_Z s) = true).
  { unfold JS.is_integer. rewrite Qfloor_Z. apply Qeq_bool_refl. }
  rewrite I, Qfloor_Z. reflexivity.
Qed.

(** C9.  Files 40, additions 600, deletions 0 under thresholds 20 and 500
    with no critical path.  On these metrics the files contribution is 30,
    the lines contribution 35, no deletion factor is added, the score is 65
    and the level high.  A run on that payload replaces the zero deletions
    by a draw, and reports the same contributions, score and level. *)
Theorem boundary_scenario_65 (now : string) (g : Rand.rng)
    (V : Rand.valid g) :
  let inputs := {| files_changed_threshold := "20";
                   lines_changed_threshold := "500";
                   critical_paths := "" |} in
  let m := {| filesChanged := JS.of_Z 40; additions := JS.of_Z 600;
              deletions := JS.of_Z 0;
              totalLines := JS.add (JS.of_Z 600) (JS.of_Z 0) |} in
  let st := fst (score_factors fraction_toString
                   (Str.parseInt (files_changed_threshold inputs))
                   (Str.parseInt (lines_changed_threshold inputs))
                   (parse_critical_paths (critical_paths inputs)) m g) in
  (filesFactor (filesChanged m) (JS.of_Z 20) = JS.of_Z 30 /\
   linesFactor (totalLines m) (JS.of_Z 500) = JS.of_Z 35 /\
   has_factor "High Deletion Ratio" (factors st) = false /\
   riskScore st = JS.of_Z 65 /\
   cap (riskScore st) = JS.of_Z 65 /\
   fst (fst (classify (cap (riskScore st)))) = "high") /\
  exists out,
    fst (run fraction_toString inputs
           (Some {| changed_files := Some 40%Z; pr_additions := Some 600%Z;
                    pr_deletions := Some 0%Z |}) now g) = Completed out /\
    filesFactor (filesChanged (a_metrics (analysis out))) (JS.of_Z 20)
      = JS.of_Z 30 /\
    linesFactor (totalLines (a_metrics (analysis out))) (JS.of_Z 500)
      = JS.of_Z 35 /\
    has_factor "High Deletion Ratio" (a_factors (analysis out)) = false /\
    a_riskScore (analysis out) = JS.of_Z 65 /\
    risk_score out = "65" /\
    risk_level out = "high".
Proof.
  intros inputs m st. split.
  { repeat split; reflexivity. }
  set (pr := Some {| changed_files := Some 40%Z; pr_additions := Some 600%Z;
                     pr_deletions := Some 0%Z |}).
  destruct (run_completed fraction_toString inputs pr now g)
    as (out & R & S & L & _ & A & _ & F & M & _).
  destruct (get_metrics_spec pr g V) as (fc & a & d & E & C1 & C2 & C3).
  assert (fc = 40%Z).
  { destruct C1 as [[X _]|[[X|X] _]]; cbn in X; congruence. }
  assert (a = 600%Z).
  { destruct C2 as [[X _]|[[X|X] _]]; cbn in X; congruence. }
  assert (D : (20 <= d <= 219)%Z).
  { destruct C3 as [[X N]|[_ D]]; [cbn in X; congruence | exact D]. }
  subst fc a. clear C1 C2 C3.
  change (Str.parseInt (files_changed_threshold inputs)) with (JS.of_Z 20) in *.
  change (Str.parseInt (lines_changed_threshold inputs)) with (JS.of_Z 500) in *.
  change (parse_critical_paths (critical_paths inputs)) with (@nil string) in *.
  assert (Ff : filesFactor (JS.of_Z 40) (JS.of_Z 20) = JS.of_Z 30) by reflexivity.
  assert (Fl : linesFactor (JS.of_Z (600 + d)) (JS.of_Z 500) = JS.of_Z 35).
  { destruct (capped_ratio (JS.of_Z (600 + d)) (JS.of_Z 500) _ _ 35
                (JSFacts.fin_val_of_Z (600 + d)) (JSFacts.fin_val_of_Z 500))
      as (c & _ & _ & _ & [[Lt _]|[_ Eq]]);
      [apply inject_Z_nonneg; lia | reflexivity | lia | | exact Eq].
    exfalso. rewrite inject_Z_plus in Lt.
    assert (20 <= inject_Z d).
    { change 20 with (inject_Z 20). rewrite <- Zle_Qle. lia. }
    change (inject_Z 600) with 600 in Lt. change (inject_Z 500) with 500 in Lt.
    change (inject_Z 35) with 35 in Lt.
    assert (X : (600 + inject_Z d) / 500 * 35 == (600 + inject_Z d) * (7 # 100))
      by (field; discriminate).
    rewrite X in Lt. lra. }
  assert (G : JS.gt (deletionRatio (JS.of_Z 600) (JS.of_Z d)) (JS.Fin (1#2))
              = false).
  { destruct (JS.gt _ _) eqn:T; [|reflexivity].
    apply deletion_gt_iff in T; [|lia|lia].
    apply ratio_above_half in T; lia. }
  assert (St : fst (score_factors fraction_toString (JS.of_Z 20) (JS.of_Z 500)
                      [] (fst (get_metrics pr g)) (snd (get_metrics pr g))) =
               before_deletion (JS.of_Z 20) (JS.of_Z 500) []
                 (fst (get_metrics pr g)) (snd (get_metrics pr g))).
  { rewrite score_factors_unfold, E. unfold deletion_step.
    cbn [additions deletions]. rewrite G. reflexivity. }
  assert (Rs : riskScore (before_deletion (JS.of_Z 20) (JS.of_Z 500) []
                 (fst (get_metrics pr g)) (snd (get_metrics pr g))) = JS.of_Z 65).
  { rewrite E. unfold before_deletion, critical_step, lines_step, files_step.
    cbn [touchesCritical List.length Nat.ltb Nat.leb Rand.ret fst riskScore
         filesChanged totalLines].
    rewrite Ff, Fl. reflexivity. }
  rewrite St in S, L, A, F. rewrite Rs in S, L, A.
  exists out. split; [exact R|]. rewrite M, E. cbn [filesChanged totalLines].
  split; [exact Ff|]. split; [exact Fl|].
  split.
  { rewrite F.
    destruct (factors_before_deletion (JS.of_Z 20) (JS.of_Z 500) []
                (fst (get_metrics pr g)) (snd (get_metrics pr g)))
      as (f1 & f2 & N1 & N2 & ->).
    unfold has_factor. cbn [existsb]. rewrite N1, N2. reflexivity. }
  split; [exact A|]. split; [exact S | exact L].
Qed.

End Runs.

(* ------------------------------------------------------------------ *)
(** ** Concrete runs *)
(* ------------------------------------------------------------------ *)

(** C3 as stated fails: with no critical path configured the Critical Paths
    factor is in the sequence all the same. *)
Lemma critical_factor_without_paths :
  exists out,
    fst (run (fun _ => "")
           {| files_changed_threshold := "20";
              lines_changed_threshold := "500";
              critical_paths := "" |}
           (Some {| changed_files := Some 10%Z; pr_additions := Some 100%Z;
                    pr_deletions := Some 10%Z |})
           "2024-01-01T00:00:00.000Z" (Rand.constant (1#2))) = Completed out /\
    ~ (has_factor "Critical Paths" (a_factors (analysis out)) = true <->
       parse_critical_paths "" <> []).
Proof.
  eexists. split; [vm_compute; reflexivity|].
  intros [H _]. apply H; reflexivity.
Qed.

(** C4 as stated fails: the same inputs and the same explicit payload, run
    with a draw of 0.5 and with a draw of 0.7, score 23 and 48. *)
Lemma rerun_differs :
  exists out1 out2,
    fst (run (fun _ => "")
           {| files_changed_threshold := "20";
              lines_changed_threshold := "500";
              critical_paths := "src/payment,src/auth" |}
           (Some {| changed_files := Some 10%Z; pr_additions := Some 100%Z;
                    pr_deletions := Some 10%Z |})
           "2024-01-01T00:00:00.000Z" (Rand.constant (1#2))) = Completed out1 /\
    fst (run (fun _ => "")
           {| files_changed_threshold := "20";
              lines_changed_threshold := "500";
              critical_paths := "src/payment,src/auth" |}
           (Some {| changed_files := Some 10%Z; pr_additions := Some 100%Z;
                    pr_deletions := Some 10%Z |})
           "2024-01-01T00:00:00.000Z" (Rand.constant (7#10))) = Completed out2 /\
    risk_score out1 = "23" /\ risk_score out2 = "48" /\
    a_riskScore (analysis out1) <> a_riskScore (analysis out2) /\
    risk_level out1 <> risk_level out2 /\
    a_factors (analysis out1) <> a_factors (analysis out2).
Proof.
  do 2 eexists. split; [vm_compute; reflexivity|].
  split; [vm_compute; reflexivity|].
  split; [reflexivity|]. split; [reflexivity|].
  split; [|split]; vm_compute; discriminate.
Qed.


(** The threshold input -0 parses to negative zero, and the files
    contribution is then -Infinity. *)
Example negative_zero_threshold :
  Str.parseInt "-0" = JS.NegZero /\
  filesFactor (JS.of_Z 10) (Str.parseInt "-0") = JS.Inf true.
Proof. split; reflexivity. Qed.

(** All four factors at their weight: 30 + 35 + 25 + 10. *)
Example all_factors_maximized :
  cap (riskScore (fst (score_factors (fun _ => "") (JS.of_Z 20) (JS.of_Z 500)
                         ["src/payment"]
                         {| filesChanged := JS.of_Z 20;
                            additions := JS.of_Z 100;
                            deletions := JS.of_Z 400;
                            totalLines := JS.of_Z 500 |}
                         (Rand.constant (7#10))))) = JS.of_Z 100.
Proof. vm_compute. reflexivity. Qed.



Lemma rerun_identical_witness :
  explicit_payload
    (Some {| changed_files := Some 10%Z; pr_additions := Some 100%Z;
             pr_deletions := Some 10%Z |}) /\
  (3#5 < Rand.constant (7#10) 0%nat <-> 3#5 < Rand.constant (9#10) 0%nat) /\
  exists out1 out2,
    fst (run (fun _ => "")
           {| files_changed_threshold := "20";
              lines_changed_threshold := "500";
              critical_paths := "src/payment" |}
           (Some {| changed_files := Some 10%Z; pr_additions := Some 100%Z;
                    pr_deletions := Some 10%Z |})
           "2024-01-01T00:00:00.000Z" (Rand.constant (7#10))) = Completed out1 /\
    fst (run (fun _ => "")
           {| files_changed_threshold := "20";
              lines_changed_threshold := "500";
              critical_paths := "src/payment" |}
           (Some {| changed_files := Some 10%Z; pr_additions := Some 100%Z;
                    pr_deletions := Some 10%Z |})
           "2024-06-30T12:00:00.000Z" (Rand.constant (9#10))) = Completed out2 /\
    risk_score out1 = risk_score out2 /\
    risk_level out1 = risk_level out2 /\
    a_factors (analysis out1) = a_factors (analysis out2).
Proof.
  assert (E : explicit_payload
    (Some {| changed_files := Some 10%Z; pr_additions := Some 100%Z;
             pr_deletions := Some 10%Z |})).
  { eexists. split; [reflexivity|].
    repeat split; eexists; (split; [reflexivity | discriminate]). }
  assert (S : 3#5 < Rand.constant (7#10) 0%nat <-> 3#5 < Rand.constant (9#10) 0%nat).
  { split; intros _; reflexivity. }
  split; [exact E|]. split; [exact S|].
  destruct (rerun_identical (fun _ => "")
              {| files_changed_threshold := "20";
                 lines_changed_threshold := "500";
                 critical_paths := "src/payment" |}
              _ "2024-01-01T00:00:00.000Z" "2024-06-30T12:00:00.000Z"
              (Rand.constant (7#10)) (Rand.constant (9#10)) E (or_intror S))
    as (out1 & out2 & R1 & R2 & _ & Hs & Hl & _ & Hf & _).
  exists out1, out2. repeat split; assumption.
Defined.


Lemma boundary_scenario_65_witness :
  Rand.valid (Rand.constant (1#2)) /\
  exists out,
    fst (run (fun _ => "")
           {| files_changed_threshold := "20";
              lines_changed_threshold := "500";
              critical_paths := "" |}
           (Some {| changed_files := Some 40%Z; pr_additions := Some 600%Z;
                    pr_deletions := Some 0%Z |})
           "2024-01-01T00:00:00.000Z" (Rand.constant (1#2))) = Completed out /\
    risk_score out = "65" /\ risk_level out = "high".
Proof.
  assert (V : Rand.valid (Rand.constant (1#2))).
  { intro n. split; [discriminate | reflexivity]. }
  split; [exact V|].
  destruct (boundary_scenario_65 (fun _ => "") "2024-01-01T00:00:00.000Z"
              (Rand.constant (1#2)) V)
    as (_ & out & R & _ & _ & _ & _ & S & L).
  exists out. repeat split; assumption.
Defined.

Lemma nan_threshold_yields_low_witness :
  (Str.parseInt "" = JS.NaN \/ Str.parseInt "500" = JS.NaN) /\
  exists out,
    fst (run (fun _ => "")
           {| files_changed_threshold := "";
              lines_changed_threshold := "500";
              critical_paths := "" |}
           None "2024-01-01T00:00:00.000Z" (Rand.constant (1#2)))
      = Completed out /\
    risk_score out = "NaN" /\ risk_level out = "low".
Proof.
  split; [left; reflexivity|].
  destruct (nan_threshold_yields_low (fun _ => "")
              {| files_changed_threshold := "";
                 lines_changed_threshold := "500";
                 critical_paths := "" |}
              None "2024-01-01T00:00:00.000Z" (Rand.constant (1#2))
              (or_introl eq_refl))
    as (_ & _ & out & R & _ & _ & _ & S & L & _).
  exists out. repeat split; assumption.
Defined.

(* ------------------------------------------------------------------ *)
(** ** Further properties of the risk calculator *)
(* ------------------------------------------------------------------ *)

Section RiskCalculatorMore.

Variable fraction_toString : Q -> string.

(** X1.  The [core.warning] of the last block and the level agree: a run
    warns exactly when its level is high or critical, and the warning quotes
    the risk-score output. *)
Theorem warning_iff_high_or_critical (inputs : Inputs)
    (prContext : option PullRequest) (now : string) (g : Rand.rng) :
  exists out,
    fst (run fraction_toString inputs prContext now g) = Completed out /\
    (warning out <> None <->
     risk_level out = "high" \/ risk_level out = "critical") /\
    (forall w, warning out = Some w ->
       w = "High risk deployment detected (" ++ risk_score out
           ++ "/100). Extra caution recommended.").
Proof.
  unfold run, Rand.bind.
  destruct (get_metrics prContext g) as [m g1].
  destruct (score_factors _ _ _ _ m g1) as [st g2].
  set (s := cap (riskScore st)).
  unfold classify.
  pose proof (ge_threshold_mono s (JS.of_Z 75) 50) as M.
  destruct (JS.ge s (JS.of_Z 75)) eqn:E75.
  - rewrite M by reflexivity. unfold Rand.ret. cbn [fst].
    eexists. split; [reflexivity|]. cbn [warning risk_level risk_score]. split.
    + split; [intros _; right; reflexivity | intros _; discriminate].
    + intros w W. injection W as <-. reflexivity.
  - destruct (JS.ge s (JS.of_Z 50)) eqn:E50.
    + unfold Rand.ret. cbn [fst].
      eexists. split; [reflexivity|]. cbn [warning risk_level risk_score]. split.
      * split; [intros _; left; reflexivity | intros _; discriminate].
      * intros w W. injection W as <-. reflexivity.
    + destruct (JS.ge s (JS.of_Z 25)); unfold Rand.ret; cbn [fst];
        (eexists; split; [reflexivity|]; cbn [warning risk_level risk_score];
         split; [split; [congruence | intros [C|C]; discriminate]
                | intros w W; discriminate]).
Qed.

Lemma indicator_bounds (b : bool) (k : Q) :
  0 <= k -> 0 <= (if b then k else 0) /\ (if b then k else 0) <= k.
Proof.
  intro H. destruct b; split;
    first [exact H | apply Qle_refl].
Qed.

Lemma of_Z_inj (a b : Z) : JS.of_Z a = JS.of_Z b -> a = b.
Proof. unfold JS.of_Z, inject_Z. intro H. injection H as H. exact H. Qed.

(** Rounding two parts apart or together differs by at most one. *)
Lemma round_sum_close (x y : Q) (n : Z) :
  let K := (Qfloor (x + (1#2)) + Qfloor (y + (1#2)) + n)%Z in
  let R := Qfloor (x + y + inject_Z n + (1#2)) in
  (R - 1 <= K <= R + 1)%Z.
Proof.
  intros K R. subst K R.
  pose proof (Qfloor_le (x + (1#2))) as A1.
  pose proof (Qlt_floor (x + (1#2))) as A2.
  pose proof (Qfloor_le (y + (1#2))) as B1.
  pose proof (Qlt_floor (y + (1#2))) as B2.
  pose proof (Qfloor_le (x + y + inject_Z n + (1#2))) as R1.
  pose proof (Qlt_floor (x + y + inject_Z n + (1#2))) as R2.
  rewrite inject_Z_plus in A2, B2, R2. change (inject_Z 1) with 1 in *.
  set (A := Qfloor (x + (1#2))) in *. set (B := Qfloor (y + (1#2))) in *.
  set (R := Qfloor (x + y + inject_Z n + (1#2))) in *.
  clearbody A B R.
  split.
  - assert (H : inject_Z R < inject_Z (A + B + n + 2)).
    { rewrite !inject_Z_plus. change (inject_Z 2) with 2. lra. }
    rewrite <- Zlt_Qlt in H. lia.
  - assert (H : inject_Z (A + B + n) < inject_Z (R + 2)).
    { rewrite !inject_Z_plus. change (inject_Z 2) with 2. lra. }
    rewrite <- Zlt_Qlt in H. lia.
Qed.

(** The factor sequence a run builds. *)
Lemma factors_score_factors (filesThreshold linesThreshold : JS.number)
    (criticalPaths : list string) (m : Metrics) (g : Rand.rng) :
  exists f1 f2,
    score f1 = JS.Math_round (filesFactor (filesChanged m) filesThreshold) /\
    score f2 = JS.Math_round (linesFactor (totalLines m) linesThreshold) /\
    factors (fst (score_factors fraction_toString filesThreshold
                    linesThreshold criticalPaths m g)) =
      ([f1; f2; critical_factor (fst (touchesCritical criticalPaths g))] ++
       if JS.gt (deletionRatio (additions m) (deletions m)) (JS.Fin (1#2))
       then [deletion_factor fraction_toString
               (deletionRatio (additions m) (deletions m))]
       else [])%list.
Proof.
  rewrite score_factors_unfold.
  unfold deletion_step, critical_step, lines_step, files_step.
  destruct (JS.gt _ _); destruct (fst (touchesCritical criticalPaths g));
    cbn [factors app]; do 2 eexists;
    (split; [|split; [|reflexivity]]); reflexivity.
Qed.

(** X2.  The scores shown per factor are rounded one by one, the score is
    rounded once: with non-negative integer metrics and positive thresholds
    the shown scores add up to the score give or take one. *)
Theorem factor_scores_close_to_score (fc a d tf tl : Z)
    (paths : list string) (g : Rand.rng)
    (Hfc : (0 <= fc)%Z) (Ha : (0 <= a)%Z) (Hd : (0 <= d)%Z)
    (Htf : (0 < tf)%Z) (Htl : (0 < tl)%Z) :
  let m := {| filesChanged := JS.of_Z fc; additions := JS.of_Z a;
              deletions := JS.of_Z d;
              totalLines := JS.add (JS.of_Z a) (JS.of_Z d) |} in
  let st := fst (score_factors fraction_toString (JS.of_Z tf) (JS.of_Z tl)
                   paths m g) in
  exists k s,
    factor_scores_sum (factors st) = JS.of_Z k /\
    cap (riskScore st) = JS.of_Z s /\
    (s - 1 <= k <= s + 1)%Z.
Proof.
  intros m st.
  destruct (score_factors_bounds fraction_toString m fc a d tf tl paths g)
    as (qf & ql & qc & qd & s & Ff & Lf & Uf & Fl & Ll & Ul & Ec & Ed & R
        & Es & Bs & _);
    try reflexivity; try assumption; [apply JSFacts.add_of_Z|].
  fold st in R, Es.
  destruct (factors_score_factors (JS.of_Z tf) (JS.of_Z tl) paths m g)
    as (f1 & f2 & S1 & S2 & Fs).
  fold st in Fs.
  rewrite (JSFacts.round_fin_nonneg _ _ Ff Lf) in S1.
  rewrite (JSFacts.round_fin_nonneg _ _ Fl Ll) in S2.
  set (c := if fst (touchesCritical paths g) then 25%Z else 0%Z).
  set (e := if JS.gt (deletionRatio (additions m) (deletions m)) (JS.Fin (1#2))
            then 10%Z else 0%Z).
  assert (Qc : qc = inject_Z c).
  { rewrite Ec. subst c. destruct (fst (touchesCritical paths g)); reflexivity. }
  assert (Qe : qd = inject_Z e).
  { rewrite Ed. subst e. destruct (JS.gt _ _); reflexivity. }
  assert (K : factor_scores_sum (factors st) =
              JS.of_Z (Qfloor (qf + (1#2)) + Qfloor (ql + (1#2)) + (c + e))).
  { rewrite Fs. unfold factor_scores_sum. subst c e.
    destruct (JS.gt _ _); destruct (fst (touchesCritical paths g));
      cbn [fold_left app critical_factor deletion_factor score];
      rewrite S1, S2, !JSFacts.add_of_Z; f_equal; lia. }
  assert (Lc : 0 <= qc /\ qc <= 25).
  { rewrite Ec. apply indicator_bounds. discriminate. }
  assert (Le : 0 <= qd /\ qd <= 10).
  { rewrite Ed. apply indicator_bounds. discriminate. }
  destruct Lc as [Lc Uc], Le as [Le Ue].
  destruct (cap_range _ _ R) as (s' & Es' & Bs' & Vs); [lra | lra |].
  rewrite Es in Es'. apply of_Z_inj in Es'. subst s'.
  exists (Qfloor (qf + (1#2)) + Qfloor (ql + (1#2)) + (c + e))%Z, s.
  split; [exact K|]. split; [exact Es|].
  pose proof (round_sum_close qf ql (c + e)) as C. cbv zeta in C.
  assert (X : qf + ql + qc + qd + (1#2) == qf + ql + inject_Z (c + e) + (1#2)).
  { rewrite Qc, Qe, inject_Z_plus. ring. }
  rewrite (Qfloor_comp _ _ X) in Vs.
  assert (T : (Qfloor (qf + ql + inject_Z (c + e) + (1#2)) <= 100)%Z).
  { change 100%Z with (Qfloor (201#2)). apply Qfloor_resp_le.
    rewrite inject_Z_plus, <- Qc, <- Qe. lra. }
  lia.
Qed.

(** [Math.min((x / y) * w, w)] does not decrease when [x] grows. *)
Lemma capped_ratio_mono (x x' y : JS.number) (p p' q c c' : Q) (w : Z) :
  fin_val x p -> fin_val x' p' -> fin_val y q ->
  0 <= p -> p <= p' -> 0 < q -> (0 < w)%Z ->
  fin_val (JS.Math_min (JS.mul (JS.div x y) (JS.of_Z w)) (JS.of_Z w)) c ->
  fin_val (JS.Math_min (JS.mul (JS.div x' y) (JS.of_Z w)) (JS.of_Z w)) c' ->
  c <= c'.
Proof.
  intros Hx Hx' Hy Lp Lpp Lq Hw Hc Hc'.
  assert (Lp' : 0 <= p') by (eapply Qle_trans; eassumption).
  destruct (capped_ratio x y p q w Hx Hy Lp Lq Hw)
    as (c0 & F0 & _ & U0 & Cs).
  destruct (capped_ratio x' y p' q w Hx' Hy Lp' Lq Hw)
    as (c1 & F1 & _ & U1 & Cs').
  pose proof (JSFacts.fin_val_unique _ _ _ F0 Hc) as E0.
  pose proof (JSFacts.fin_val_unique _ _ _ F1 Hc') as E1.
  rewrite <- E0, <- E1.
  pose proof (inject_Z_pos w Hw) as Lw.
  assert (M : p / q * inject_Z w <= p' / q * inject_Z w).
  { unfold Qdiv. pose proof (Qinv_lt_0_compat q Lq) as Li.
    apply Qmult_le_compat_r; [|apply Qlt_le_weak; exact Lw].
    apply Qmult_le_compat_r; [exact Lpp | apply Qlt_le_weak; exact Li]. }
  assert (B0 : c0 <= p / q * inject_Z w).
  { destruct Cs as [[_ E]|[L _]]; [rewrite E; apply Qle_refl|].
    eapply Qle_trans; eassumption. }
  destruct Cs' as [[_ E]|[L E]].
  - rewrite E. eapply Qle_trans; eassumption.
  - rewrite E in F1. simpl in F1. rewrite <- F1. exact U0.
Qed.

(** X3.  The score is monotone in the number of files and in the deletions:
    with non-negative integer metrics and positive thresholds, more files
    changed or more lines deleted, all else equal, never lowers the score. *)
Theorem score_monotone (fc fc' a d d' tf tl : Z)
    (paths : list string) (g : Rand.rng)
    (Hfc : (0 <= fc <= fc')%Z) (Ha : (0 <= a)%Z) (Hd : (0 <= d <= d')%Z)
    (Htf : (0 < tf)%Z) (Htl : (0 < tl)%Z) :
  let metrics fc d :=
    {| filesChanged := JS.of_Z fc; additions := JS.of_Z a;
       deletions := JS.of_Z d;
       totalLines := JS.add (JS.of_Z a) (JS.of_Z d) |} in
  let final m :=
    cap (riskScore (fst (score_factors fraction_toString (JS.of_Z tf)
                           (JS.of_Z tl) paths m g))) in
  exists s s',
    final (metrics fc d) = JS.of_Z s /\
    final (metrics fc' d') = JS.of_Z s' /\
    (s <= s')%Z.
Proof.
  intros metrics final. subst final. cbv beta.
  destruct (score_factors_bounds fraction_toString (metrics fc d)
              fc a d tf tl paths g)
    as (qf & ql & qc & qd & s & Ff & Lf & Uf & Fl & Ll & Ul & Ec & Ed & R
        & Es & Bs & _);
    try reflexivity; try lia; [apply JSFacts.add_of_Z|].
  destruct (score_factors_bounds fraction_toString (metrics fc' d')
              fc' a d' tf tl paths g)
    as (qf' & ql' & qc' & qd' & s' & Ff' & Lf' & Uf' & Fl' & Ll' & Ul' & Ec'
        & Ed' & R' & Es' & Bs' & _);
    try reflexivity; try lia; [apply JSFacts.add_of_Z|].
  assert (Mf : qf <= qf').
  { apply (capped_ratio_mono (JS.of_Z fc) (JS.of_Z fc') (JS.of_Z tf)
             (inject_Z fc) (inject_Z fc') (inject_Z tf) qf qf' 30);
      try apply JSFacts.fin_val_of_Z; try assumption; try lia.
    - apply inject_Z_nonneg; lia.
    - rewrite <- Zle_Qle. lia.
    - apply inject_Z_pos; lia. }
  assert (Ml : ql <= ql').
  { cbn [totalLines metrics] in Fl, Fl'. rewrite JSFacts.add_of_Z in Fl, Fl'.
    apply (capped_ratio_mono (JS.of_Z (a + d)) (JS.of_Z (a + d')) (JS.of_Z tl)
             (inject_Z (a + d)) (inject_Z (a + d')) (inject_Z tl) ql ql' 35);
      try apply JSFacts.fin_val_of_Z; try assumption; try lia.
    - apply inject_Z_nonneg; lia.
    - rewrite <- Zle_Qle. lia.
    - apply inject_Z_pos; lia. }
  assert (Mc : qc' = qc) by (rewrite Ec, Ec'; reflexivity).
  rewrite Mc in R'. clear Ec' Mc.
  assert (Md : qd <= qd').
  { rewrite Ed, Ed'. cbn [additions deletions metrics].
    destruct (JS.gt (deletionRatio (JS.of_Z a) (JS.of_Z d)) (JS.Fin (1#2))) eqn:G.
    - apply deletion_gt_iff in G; [|lia|lia].
      apply ratio_above_half in G; [|lia].
      assert (G' : JS.gt (deletionRatio (JS.of_Z a) (JS.of_Z d')) (JS.Fin (1#2))
                   = true).
      { apply deletion_gt_iff; [lia|lia|]. apply ratio_above_half; lia. }
      rewrite G'. apply Qle_refl.
    - destruct (JS.gt (deletionRatio (JS.of_Z a) (JS.of_Z d')) (JS.Fin (1#2)));
        [unfold Qle; simpl; lia | apply Qle_refl]. }
  assert (Bc : 0 <= qc /\ qc <= 25).
  { rewrite Ec. apply indicator_bounds. discriminate. }
  assert (Bd : 0 <= qd /\ qd <= 10).
  { rewrite Ed. apply indicator_bounds. discriminate. }
  assert (Bd' : 0 <= qd' /\ qd' <= 10).
  { rewrite Ed'. apply indicator_bounds. discriminate. }
  destruct Bc as [Lc Uc], Bd as [Ld Ud], Bd' as [Ld' Ud'].
  destruct (cap_range _ _ R) as (z & Ez & _ & Vz); [lra | lra |].
  destruct (cap_range _ _ R') as (z' & Ez' & _ & Vz'); [lra | lra |].
  exists z, z'. split; [exact Ez|]. split; [exact Ez'|].
  assert (F : (Qfloor (qf + ql + qc + qd + (1#2)) <=
               Qfloor (qf' + ql' + qc + qd' + (1#2)))%Z).
  { apply Qfloor_resp_le. lra. }
  lia.
Qed.

(** X4.  With no critical path configured the critical-path factor adds
    nothing, and the score of non-negative integer metrics under positive
    thresholds is at most 30 + 35 + 10 = 75. *)
Theorem score_without_critical_paths (fc a d tf tl : Z) (g : Rand.rng)
    (Hfc : (0 <= fc)%Z) (Ha : (0 <= a)%Z) (Hd : (0 <= d)%Z)
    (Htf : (0 < tf)%Z) (Htl : (0 < tl)%Z) :
  let m := {| filesChanged := JS.of_Z fc; additions := JS.of_Z a;
              deletions := JS.of_Z d;
              totalLines := JS.add (JS.of_Z a) (JS.of_Z d) |} in
  let st := fst (score_factors fraction_toString (JS.of_Z tf) (JS.of_Z tl)
                   [] m g) in
  exists s, cap (riskScore st) = JS.of_Z s /\ (0 <= s <= 75)%Z.
Proof.
  intros m st.
  destruct (score_factors_bounds fraction_toString m fc a d tf tl [] g)
    as (qf & ql & qc & qd & s & Ff & Lf & Uf & Fl & Ll & Ul & Ec & Ed & R
        & Es & Bs & _);
    try reflexivity; try assumption; [apply JSFacts.add_of_Z|].
  fold st in R, Es.
  assert (Bd : 0 <= qd /\ qd <= 10).
  { rewrite Ed. apply indicator_bounds. discriminate. }
  destruct Bd as [Ld Ud]. cbn in Ec.
  destruct (cap_range _ _ R) as (z & Ez & Bz & Vz); [rewrite Ec; lra.. |].
  exists z. split; [exact Ez|].
  assert (F : (Qfloor (qf + ql + qc + qd + (1#2)) <= Qfloor (151#2))%Z).
  { apply Qfloor_resp_le. rewrite Ec. lra. }
  change (Qfloor (151#2)) with 75%Z in F. lia.
Qed.

(** [Math.min((x / y) * w, w)] does not increase when [y] grows. *)
Lemma capped_ratio_antitone (x y y' : JS.number) (p q q' c c' : Q) (w : Z) :
  fin_val x p -> fin_val y q -> fin_val y' q' ->
  0 <= p -> 0 < q -> q <= q' -> (0 < w)%Z ->
  fin_val (JS.Math_min (JS.mul (JS.div x y) (JS.of_Z w)) (JS.of_Z w)) c ->
  fin_val (JS.Math_min (JS.mul (JS.div x y') (JS.of_Z w)) (JS.of_Z w)) c' ->
  c' <= c.
Proof.
  intros Hx Hy Hy' Lp Lq Lqq Hw Hc Hc'.
  assert (Lq' : 0 < q') by (eapply Qlt_le_trans; eassumption).
  destruct (capped_ratio x y p q w Hx Hy Lp Lq Hw)
    as (c0 & F0 & _ & U0 & Cs).
  destruct (capped_ratio x y' p q' w Hx Hy' Lp Lq' Hw)
    as (c1 & F1 & _ & U1 & Cs').
  pose proof (JSFacts.fin_val_unique _ _ _ F0 Hc) as E0.
  pose proof (JSFacts.fin_val_unique _ _ _ F1 Hc') as E1.
  rewrite <- E0, <- E1.
  pose proof (inject_Z_pos w Hw) as Lw.
  assert (M : p / q' * inject_Z w <= p / q * inject_Z w).
  { apply Qmult_le_compat_r; [|apply Qlt_le_weak; exact Lw].
    apply Qle_shift_div_l; [exact Lq|].
    assert (N : ~ q' == 0)
      by (intro E; rewrite E in Lq'; exact (Qlt_irrefl _ Lq')).
    pose proof (Qmult_div_r p q' N) as D.
    assert (R : 0 <= p / q').
    { apply Qle_shift_div_l; [exact Lq' | rewrite Qmult_0_l; exact Lp]. }
    assert (T : q * (p / q') <= q' * (p / q'))
      by (apply Qmult_le_compat_r; assumption).
    rewrite D in T. rewrite Qmult_comm. exact T. }
  assert (B1 : c1 <= p / q' * inject_Z w).
  { destruct Cs' as [[_ E]|[L _]]; [rewrite E; apply Qle_refl|].
    eapply Qle_trans; eassumption. }
  destruct Cs as [[_ E]|[L E]].
  - rewrite E. eapply Qle_trans; eassumption.
  - rewrite E in F0. simpl in F0. rewrite <- F0. exact U1.
Qed.

(** X18.  Raising a threshold never raises the score: with non-negative
    integer metrics, the score under positive thresholds is at least the
    score of the same change under larger thresholds. *)
Theorem score_antitone_in_thresholds (fc a d tf tf' tl tl' : Z)
    (paths : list string) (g : Rand.rng)
    (Hfc : (0 <= fc)%Z) (Ha : (0 <= a)%Z) (Hd : (0 <= d)%Z)
    (Htf : (0 < tf <= tf')%Z) (Htl : (0 < tl <= tl')%Z) :
  let m := {| filesChanged := JS.of_Z fc; additions := JS.of_Z a;
              deletions := JS.of_Z d;
              totalLines := JS.add (JS.of_Z a) (JS.of_Z d) |} in
  let final tf tl :=
    cap (riskScore (fst (score_factors fraction_toString (JS.of_Z tf)
                           (JS.of_Z tl) paths m g))) in
  exists s s',
    final tf tl = JS.of_Z s /\
    final tf' tl' = JS.of_Z s' /\
    (s' <= s)%Z.
Proof.
  intros m final. subst final. cbv beta.
  destruct (score_factors_bounds fraction_toString m fc a d tf tl paths g)
    as (qf & ql & qc & qd & s & Ff & Lf & Uf & Fl & Ll & Ul & Ec & Ed & R
        & Es & Bs & _);
    try reflexivity; try lia; [apply JSFacts.add_of_Z|].
  destruct (score_factors_bounds fraction_toString m fc a d tf' tl' paths g)
    as (qf' & ql' & qc' & qd' & s' & Ff' & Lf' & Uf' & Fl' & Ll' & Ul' & Ec'
        & Ed' & R' & Es' & Bs' & _);
    try reflexivity; try lia; [apply JSFacts.add_of_Z|].
  assert (Mf : qf' <= qf).
  { apply (capped_ratio_antitone (JS.of_Z fc) (JS.of_Z tf) (JS.of_Z tf')
             (inject_Z fc) (inject_Z tf) (inject_Z tf') qf qf' 30);
      try apply JSFacts.fin_val_of_Z; try assumption; try lia.
    - apply inject_Z_nonneg; lia.
    - apply inject_Z_pos; lia.
    - rewrite <- Zle_Qle. lia. }
  assert (Ml : ql' <= ql).
  { cbn [totalLines m] in Fl, Fl'. rewrite JSFacts.add_of_Z in Fl, Fl'.
    apply (capped_ratio_antitone (JS.of_Z (a + d)) (JS.of_Z tl) (JS.of_Z tl')
             (inject_Z (a + d)) (inject_Z tl) (inject_Z tl') ql ql' 35);
      try apply JSFacts.fin_val_of_Z; try assumption; try lia.
    - apply inject_Z_nonneg; lia.
    - apply inject_Z_pos; lia.
    - rewrite <- Zle_Qle. lia. }
  assert (Mc : qc' = qc) by (rewrite Ec, Ec'; reflexivity).
  assert (Md : qd' = qd) by (rewrite Ed, Ed'; reflexivity).
  rewrite Mc, Md in R'. clear Ec' Ed' Mc Md.
  assert (Bc : 0 <= qc /\ qc <= 25).
  { rewrite Ec. apply indicator_bounds. discriminate. }
  assert (Bd : 0 <= qd /\ qd <= 10).
  { rewrite Ed. apply indicator_bounds. discriminate. }
  destruct Bc as [Lc Uc], Bd as [Ld Ud].
  destruct (cap_range _ _ R) as (z & Ez & _ & Vz); [lra | lra |].
  destruct (cap_range _ _ R') as (z' & Ez' & _ & Vz'); [lra | lra |].
  exists z, z'. split; [exact Ez|]. split; [exact Ez'|].
  assert (F : (Qfloor (qf' + ql' + qc + qd + (1#2)) <=
               Qfloor (qf + ql + qc + qd + (1#2)))%Z).
  { apply Qfloor_resp_le. lra. }
  lia.
Qed.

End RiskCalculatorMore.

(* ------------------------------------------------------------------ *)
(** ** The inputs: critical paths and integers *)
(* ------------------------------------------------------------------ *)

Lemma all_chars_app (p : ascii -> bool) (s t : string) :
  all_chars p (s ++ t) = all_chars p s && all_chars p t.
Proof.
  induction s as [|c s IH]; cbn [append all_chars]; [reflexivity|].
  rewrite IH. apply andb_assoc.
Qed.

Lemma split_nonempty (sep : ascii) (s : string) : Str.split sep s <> [].
Proof.
  destruct s as [|c s]; cbn [Str.split]; [discriminate|].
  destruct (Ascii.eqb c sep); [discriminate|].
  destruct (Str.split sep s); discriminate.
Qed.

(** No piece of [s.split(sep)] contains the separator. *)
Lemma split_no_sep (sep : ascii) (s : string) :
  Forall (fun piece => all_chars (fun c => negb (Ascii.eqb c sep)) piece = true)
         (Str.split sep s).
Proof.
  induction s as [|c s IH]; cbn [Str.split].
  - constructor; [reflexivity | constructor].
  - destruct (Ascii.eqb c sep) eqn:E.
    + constructor; [reflexivity | exact IH].
    + destruct (Str.split sep s) as [|piece rest].
      * constructor; [cbn [all_chars]; rewrite E; reflexivity | constructor].
      * inversion IH as [|? ? Hp Hr]; subst.
        constructor; [cbn [all_chars]; rewrite E, Hp; reflexivity | exact Hr].
Qed.

Lemma trimStart_all_chars (p : ascii -> bool) (s : string) :
  all_chars p s = true -> all_chars p (Str.trimStart s) = true.
Proof.
  induction s as [|c s IH]; cbn [Str.trimStart all_chars]; [reflexivity|].
  intro H. apply andb_true_iff in H as [Hc Hs].
  destruct (Str.is_white c); [apply IH; exact Hs|].
  cbn [all_chars]. rewrite Hc, Hs. reflexivity.
Qed.

Lemma trimEnd_all_chars (p : ascii -> bool) (s : string) :
  all_chars p s = true -> all_chars p (Str.trimEnd s) = true.
Proof.
  induction s as [|c s IH]; cbn [Str.trimEnd all_chars]; [reflexivity|].
  intro H. apply andb_true_iff in H as [Hc Hs]. specialize (IH Hs).
  destruct (Str.trimEnd s) as [|c' r].
  - destruct (Str.is_white c); [reflexivity|].
    cbn [all_chars]. rewrite Hc. reflexivity.
  - cbn [all_chars] in *. rewrite Hc, IH. reflexivity.
Qed.

Lemma trimStart_head (s : string) : head_is not_white (Str.trimStart s) = true.
Proof.
  induction s as [|c s IH]; cbn [Str.trimStart]; [reflexivity|].
  destruct (Str.is_white c) eqn:E; [exact IH|].
  cbn [head_is]. unfold not_white. rewrite E. reflexivity.
Qed.

Lemma trimStart_fixed (s : string) :
  head_is not_white s = true -> Str.trimStart s = s.
Proof.
  destruct s as [|c s]; cbn [head_is Str.trimStart]; [reflexivity|].
  unfold not_white. intro H. apply negb_true_iff in H. rewrite H. reflexivity.
Qed.

Lemma trimEnd_head (s : string) :
  head_is not_white s = true -> head_is not_white (Str.trimEnd s) = true.
Proof.
  destruct s as [|c s]; cbn [head_is Str.trimEnd]; [reflexivity|].
  intro H. destruct (Str.trimEnd s).
  - unfold not_white in H. apply negb_true_iff in H. rewrite H.
    cbn [head_is]. unfold not_white. rewrite H. reflexivity.
  - exact H.
Qed.

Lemma trimEnd_idempotent (s : string) :
  Str.trimEnd (Str.trimEnd s) = Str.trimEnd s.
Proof.
  induction s as [|c s IH]; cbn [Str.trimEnd]; [reflexivity|].
  destruct (Str.trimEnd s) as [|c' r] eqn:E.
  - destruct (Str.is_white c) eqn:W; cbn [Str.trimEnd]; [reflexivity|].
    rewrite W. reflexivity.
  - change (Str.trimEnd (String c (String c' r)))
      with (match Str.trimEnd (String c' r) with
            | EmptyString =>
                if Str.is_white c then EmptyString else String c EmptyString
            | r0 => String c r0
            end).
    rewrite IH. reflexivity.
Qed.

(** [s.trim().trim()] is [s.trim()]. *)
Lemma trim_idempotent (s : string) : Str.trim (Str.trim s) = Str.trim s.
Proof.
  unfold Str.trim.
  rewrite (trimStart_fixed (Str.trimEnd (Str.trimStart s))).
  - apply trimEnd_idempotent.
  - apply trimEnd_head, trimStart_head.
Qed.

Lemma trimStart_empty_iff (s : string) :
  Str.trimStart s = "" <-> all_chars Str.is_white s = true.
Proof.
  induction s as [|c s IH]; cbn [Str.trimStart all_chars]; [tauto|].
  destruct (Str.is_white c); cbn [andb]; [exact IH|].
  split; discriminate.
Qed.

Lemma trimEnd_empty_iff (s : string) :
  Str.trimEnd s = "" <-> all_chars Str.is_white s = true.
Proof.
  induction s as [|c s IH]; cbn [Str.trimEnd all_chars]; [tauto|].
  destruct (Str.trimEnd s) as [|c' r].
  - destruct (Str.is_white c); cbn [andb].
    + split; [intros _; apply IH; reflexivity | reflexivity].
    + split; discriminate.
  - split; [discriminate|].
    intro H. apply andb_true_iff in H as [_ H]. apply IH in H. discriminate.
Qed.

Lemma trimStart_white (s : string) :
  all_chars Str.is_white (Str.trimStart s) = all_chars Str.is_white s.
Proof.
  induction s as [|c s IH]; cbn [Str.trimStart all_chars]; [reflexivity|].
  destruct (Str.is_white c) eqn:E; cbn [andb]; [exact IH|].
  cbn [all_chars]. rewrite E. reflexivity.
Qed.

(** [s.trim()] is empty exactly when [s] is white space throughout. *)
Lemma trim_empty_iff (s : string) :
  Str.trim s = "" <-> all_chars Str.is_white s = true.
Proof.
  unfold Str.trim. rewrite trimEnd_empty_iff, trimStart_white. reflexivity.
Qed.

(** X5.  Every critical path the action works with is non-empty, has no
    white space at either end and contains no comma (for an ASCII input). *)
Theorem critical_paths_are_clean (s p : string)
    (A : ascii_text s)
    (H : In p (parse_critical_paths s)) :
  p <> "" /\ Str.trim p = p /\ all_chars not_comma p = true.
Proof.
  unfold parse_critical_paths in H.
  apply filter_In in H as [H B].
  apply in_map_iff in H as (piece & <- & Hp).
  split; [|split].
  - intro E. rewrite E in B. discriminate.
  - apply trim_idempotent.
  - pose proof (split_no_sep "," s) as F.
    rewrite Forall_forall in F. specialize (F piece Hp).
    unfold Str.trim. apply trimEnd_all_chars, trimStart_all_chars. exact F.
Qed.

Lemma critical_paths_are_clean_witness :
  ascii_text " src/payment , src/auth ,, " /\
  In "src/auth" (parse_critical_paths " src/payment , src/auth ,, ") /\
  "src/auth" <> "" /\ Str.trim "src/auth" = "src/auth" /\
  all_chars not_comma "src/auth" = true.
Proof.
  assert (H : In "src/auth" (parse_critical_paths " src/payment , src/auth ,, ")).
  { right. left. reflexivity. }
  assert (A : ascii_text " src/payment , src/auth ,, ") by reflexivity.
  split; [exact A|]. split; [exact H|].
  exact (critical_paths_are_clean _ _ A H).
Defined.

Lemma split_all_white (sep : ascii) (s : string) :
  Forall (fun piece => all_chars Str.is_white piece = true) (Str.split sep s) <->
  all_chars (fun c => Ascii.eqb c sep || Str.is_white c) s = true.
Proof.
  induction s as [|c s IH]; cbn [Str.split all_chars].
  - split; [reflexivity | intros _; constructor; [reflexivity | constructor]].
  - destruct (Ascii.eqb c sep) eqn:E; cbn [orb andb].
    + rewrite <- IH. split.
      * intro F. inversion F; assumption.
      * intro F. constructor; [reflexivity | exact F].
    + pose proof (split_nonempty sep s) as N.
      destruct (Str.split sep s) as [|piece rest]; [congruence|].
      rewrite andb_true_iff, <- IH. cbn [all_chars]. split.
      * intro F. inversion F as [|? ? Hp Hr]; subst.
        apply andb_true_iff in Hp as [Hc Hp].
        split; [exact Hc | constructor; assumption].
      * intros [Hc F]. inversion F as [|? ? Hp Hr]; subst.
        constructor; [cbn [all_chars]; rewrite Hc, Hp; reflexivity | exact Hr].
Qed.

Lemma filter_trim_nil (l : list string) :
  filter Str.Boolean (map Str.trim l) = [] <->
  Forall (fun piece => all_chars Str.is_white piece = true) l.
Proof.
  induction l as [|p l IH]; cbn [map filter].
  - split; [constructor | reflexivity].
  - pose proof (trim_empty_iff p) as T.
    destruct (Str.trim p) as [|c r]; cbn [Str.Boolean].
    + rewrite IH. split.
      * intro F. constructor; [apply T; reflexivity | exact F].
      * intro F. inversion F; assumption.
    + split; [discriminate|].
      intro F. inversion F as [|? ? Hp _]; subst.
      apply T in Hp. discriminate.
Qed.

(** X6.  The critical-path factor is switched off, the list being empty,
    exactly by an input made of commas and white space only, the empty
    default included (for an ASCII input). *)
Theorem no_critical_paths_iff (s : string) (A : ascii_text s) :
  parse_critical_paths s = [] <-> all_chars comma_or_white s = true.
Proof.
  unfold parse_critical_paths, comma_or_white.
  rewrite filter_trim_nil. apply split_all_white.
Qed.

Lemma no_critical_paths_iff_witness :
  ascii_text " , ,," /\
  (parse_critical_paths " , ,," = [] <->
   all_chars comma_or_white " , ,," = true).
Proof.
  split; [reflexivity|].
  apply (no_critical_paths_iff " , ,,"). reflexivity.
Defined.

Lemma uint_value_of_uint_acc (d : Decimal.uint) (acc : positive) :
  uint_value (Z.pos acc) d = Z.pos (Pos.of_uint_acc d acc).
Proof.
  revert acc.
  induction d; intro acc; cbn [uint_value Pos.of_uint_acc];
    try reflexivity; rewrite <- IHd; f_equal; lia.
Qed.

Lemma uint_value_of_uint (d : Decimal.uint) :
  uint_value 0 d = Z.of_N (Pos.of_uint d).
Proof.
  induction d; cbn [uint_value Pos.of_uint]; try reflexivity;
    try exact IHd; cbn [Z.of_N]; rewrite <- uint_value_of_uint_acc; reflexivity.
Qed.

Lemma uint_value_to_uint (p : positive) :
  uint_value 0 (Pos.to_uint p) = Z.pos p.
Proof.
  rewrite uint_value_of_uint, DecimalPos.Unsigned.of_to. reflexivity.
Qed.

Lemma to_uint_not_Nil (p : positive) : Pos.to_uint p <> Decimal.Nil.
Proof.
  intro E. pose proof (DecimalPos.Unsigned.of_to p) as H.
  rewrite E in H. discriminate.
Qed.

(** Reading the digits of a numeral, then stopping at [t]. *)
Lemma digits_string_of_uint (d : Decimal.uint) (acc : Z) (t : string) :
  head_is not_digit t = true ->
  Str.digits (Some acc) (NilEmpty.string_of_uint d ++ t) =
  Some (uint_value acc d).
Proof.
  intro H. revert acc.
  induction d; intro acc; cbn [NilEmpty.string_of_uint append uint_value];
    try (cbn [Str.digits]; change (Str.is_digit _) with true; cbv iota;
         rewrite <- IHd; reflexivity).
  destruct t as [|c t]; cbn [Str.digits]; [reflexivity|].
  cbn [head_is] in H. unfold not_digit in H. apply negb_true_iff in H.
  rewrite H. reflexivity.
Qed.

Lemma parseInt_numeral (d : Decimal.uint) (t : string) :
  d <> Decimal.Nil -> head_is not_digit t = true ->
  Str.digits None (NilEmpty.string_of_uint d ++ t) = Some (uint_value 0 d) /\
  Str.trimStart (NilEmpty.string_of_uint d ++ t) =
    NilEmpty.string_of_uint d ++ t /\
  head_is Str.is_digit (NilEmpty.string_of_uint d ++ t) = true /\
  NilEmpty.string_of_uint d ++ t <> "".
Proof.
  intros N H.
  destruct d; try congruence;
    cbn [NilEmpty.string_of_uint append Str.digits Str.trimStart head_is];
    change (Str.is_digit _) with true; change (Str.is_white _) with false;
    cbv iota; (split; [|split; [|split]]);
    try reflexivity; try discriminate;
    rewrite (digits_string_of_uint _ _ t H); reflexivity.
Qed.

(** The decimal text of an integer, followed by text that does not start
    with a digit, parses to that integer. *)
Lemma parseInt_decimal (z : Z) (t : string) :
  head_is not_digit t = true ->
  Str.parseInt (JS.Z_toString z ++ t) = JS.of_Z z.
Proof.
  intro H.
  unfold JS.Z_toString. destruct z as [|p|p]; cbn [Z.to_int].
  - change (NilZero.string_of_int (Decimal.Pos Decimal.zero)) with "0".
    cbn [append]. unfold Str.parseInt.
    change (Str.trimStart (String "0" t)) with (String "0" t).
    cbv iota beta.
    change (Str.digits None (String "0" t)) with (Str.digits (Some 0%Z) t).
    destruct t as [|c t]; cbn [Str.digits]; [reflexivity|].
    cbn [head_is] in H. unfold not_digit in H. apply negb_true_iff in H.
    rewrite H. reflexivity.
  - cbn [NilZero.string_of_int]. unfold NilZero.string_of_uint.
    pose proof (to_uint_not_Nil p) as N.
    destruct (parseInt_numeral (Pos.to_uint p) t N H) as (D & T & Hd & Ne).
    rewrite uint_value_to_uint in D.
    assert (E : match Pos.to_uint p with
                | Decimal.Nil => "0"
                | _ => NilEmpty.string_of_uint (Pos.to_uint p)
                end = NilEmpty.string_of_uint (Pos.to_uint p)).
    { destruct (Pos.to_uint p); congruence. }
    rewrite E. unfold Str.parseInt. rewrite T.
    destruct (NilEmpty.string_of_uint (Pos.to_uint p) ++ t) as [|c r] eqn:S;
      [congruence|].
    cbn [head_is] in Hd.
    assert (Sg : (let '(neg, rest) :=
                    match String c r with
                    | String "-" r0 => (true, r0)
                    | String "+" r0 => (false, r0)
                    | _ => (false, String c r)
                    end in
                  match Str.digits None rest with
                  | Some 0%Z => JS.zero neg
                  | Some n => JS.of_Z (if neg then (- n)%Z else n)
                  | None => JS.NaN
                  end) =
                 match Str.digits None (String c r) with
                 | Some 0%Z => JS.zero false
                 | Some n => JS.of_Z n
                 | None => JS.NaN
                 end).
    { destruct c as [[] [] [] [] [] [] [] []]; try discriminate Hd; reflexivity. }
    rewrite Sg, D. reflexivity.
  - cbn [NilZero.string_of_int]. unfold NilZero.string_of_uint.
    pose proof (to_uint_not_Nil p) as N.
    destruct (parseInt_numeral (Pos.to_uint p) t N H) as (D & T & Hd & Ne).
    rewrite uint_value_to_uint in D.
    assert (E : match Pos.to_uint p with
                | Decimal.Nil => "0"
                | _ => NilEmpty.string_of_uint (Pos.to_uint p)
                end = NilEmpty.string_of_uint (Pos.to_uint p)).
    { destruct (Pos.to_uint p); congruence. }
    rewrite E. cbn [append]. unfold Str.parseInt.
    change (Str.trimStart (String "-" ?s)) with (String "-" s).
    cbn [Str.trimStart]. change (Str.is_white "-") with false. cbv iota beta.
    rewrite D. reflexivity.
Qed.

(** X7.  [parseInt] reads back what [toString] writes for an integer, and
    ignores any text after the digits: [parseInt(n.toString() + t, 10)] is
    [n] for every safe integer [n] whenever [t] does not start with a
    digit. *)
Theorem parseInt_toString (z : Z) (t : string)
    (S : safe_integer z)
    (H : head_is not_digit t = true) :
  Str.parseInt (JS.Z_toString z ++ t) = JS.of_Z z.
Proof. exact (parseInt_decimal z t H). Qed.

Lemma parseInt_toString_witness :
  safe_integer (-8080) /\ head_is not_digit "px" = true /\
  Str.parseInt (JS.Z_toString (-8080) ++ "px") = JS.of_Z (-8080).
Proof.
  assert (S : safe_integer (-8080)) by (unfold safe_integer; simpl; lia).
  split; [exact S|]. split; [reflexivity|].
  apply (parseInt_toString (-8080) "px" S). reflexivity.
Defined.

Lemma append_empty (s : string) : s ++ "" = s.
Proof. induction s as [|c s IH]; cbn [append]; [reflexivity | rewrite IH; reflexivity]. Qed.

Section ScoreOutput.

Variable fraction_toString : Q -> string.

(** X8.  Under positive thresholds and a payload of non-negative fields the
    risk-score output is the decimal text of the score: a later step that
    reads it with [parseInt] gets the score of the analysis back. *)
Theorem risk_score_output_parses_back (inputs : Inputs)
    (prContext : option PullRequest) (now : string) (g : Rand.rng)
    (tf tl : Z)
    (Pf : Str.parseInt (files_changed_threshold inputs) = JS.of_Z tf)
    (Pl : Str.parseInt (lines_changed_threshold inputs) = JS.of_Z tl)
    (Htf : (0 < tf)%Z) (Htl : (0 < tl)%Z)
    (V : Rand.valid g) (P : nonneg_payload prContext) :
  exists out,
    fst (run fraction_toString inputs prContext now g) = Completed out /\
    Str.parseInt (risk_score out) = a_riskScore (analysis out).
Proof.
  destruct (run_score_in_range fraction_toString inputs prContext now g tf tl
              Pf Pl Htf Htl V P) as (out & s & R & A & _ & S).
  exists out. split; [exact R|].
  rewrite S, A, <- (append_empty (JS.Z_toString s)).
  apply parseInt_decimal. reflexivity.
Qed.

End ScoreOutput.

Lemma risk_score_output_parses_back_witness :
  Str.parseInt "20" = JS.of_Z 20 /\ Str.parseInt "500" = JS.of_Z 500 /\
  (0 < 20)%Z /\ (0 < 500)%Z /\ Rand.valid (Rand.constant (1#2)) /\
  nonneg_payload None /\
  exists out,
    fst (run (fun _ => "")
           {| files_changed_threshold := "20";
              lines_changed_threshold := "500";
              critical_paths := "src/payment" |}
           None "2024-01-01T00:00:00.000Z" (Rand.constant (1#2)))
      = Completed out /\
    Str.parseInt (risk_score out) = a_riskScore (analysis out).
Proof.
  split; [reflexivity|]. split; [reflexivity|]. split; [lia|]. split; [lia|].
  split; [intro n; split; [discriminate | reflexivity]|]. split; [exact I|].
  apply (risk_score_output_parses_back (fun _ => "")
           {| files_changed_threshold := "20";
              lines_changed_threshold := "500";
              critical_paths := "src/payment" |}
           None "2024-01-01T00:00:00.000Z" (Rand.constant (1#2)) 20 500);
    [reflexivity | reflexivity | lia | lia
    | intro n; split; [discriminate | reflexivity] | exact I].
Defined.

Lemma factor_scores_close_to_score_witness :
  (0 <= 5)%Z /\ (0 <= 100)%Z /\ (0 <= 7)%Z /\ (0 < 20)%Z /\ (0 < 500)%Z /\
  exists k s,
    factor_scores_sum
      (factors (fst (score_factors (fun _ => "") (JS.of_Z 20) (JS.of_Z 500) []
                       {| filesChanged := JS.of_Z 5; additions := JS.of_Z 100;
                          deletions := JS.of_Z 7;
                          totalLines := JS.add (JS.of_Z 100) (JS.of_Z 7) |}
                       (Rand.constant (1#2))))) = JS.of_Z k /\
    cap (riskScore (fst (score_factors (fun _ => "") (JS.of_Z 20) (JS.of_Z 500) []
                       {| filesChanged := JS.of_Z 5; additions := JS.of_Z 100;
                          deletions := JS.of_Z 7;
                          totalLines := JS.add (JS.of_Z 100) (JS.of_Z 7) |}
                       (Rand.constant (1#2))))) = JS.of_Z s /\
    (s - 1 <= k <= s + 1)%Z.
Proof.
  repeat (split; [lia|]).
  apply (factor_scores_close_to_score (fun _ => "") 5 100 7 20 500 []
           (Rand.constant (1#2))); lia.
Defined.

Lemma score_monotone_witness :
  (0 <= 5 <= 12)%Z /\ (0 <= 100)%Z /\ (0 <= 7 <= 90)%Z /\
  (0 < 20)%Z /\ (0 < 500)%Z /\
  exists s s',
    cap (riskScore (fst (score_factors (fun _ => "") (JS.of_Z 20) (JS.of_Z 500)
                           ["src/auth"]
                           {| filesChanged := JS.of_Z 5;
                              additions := JS.of_Z 100;
                              deletions := JS.of_Z 7;
                              totalLines := JS.add (JS.of_Z 100) (JS.of_Z 7) |}
                           (Rand.constant (1#2))))) = JS.of_Z s /\
    cap (riskScore (fst (score_factors (fun _ => "") (JS.of_Z 20) (JS.of_Z 500)
                           ["src/auth"]
                           {| filesChanged := JS.of_Z 12;
                              additions := JS.of_Z 100;
                              deletions := JS.of_Z 90;
                              totalLines := JS.add (JS.of_Z 100) (JS.of_Z 90) |}
                           (Rand.constant (1#2))))) = JS.of_Z s' /\
    (s <= s')%Z.
Proof.
  repeat (split; [lia|]).
  apply (score_monotone (fun _ => "") 5 12 100 7 90 20 500 ["src/auth"]
           (Rand.constant (1#2))); lia.
Defined.

Lemma score_without_critical_paths_witness :
  (0 <= 40)%Z /\ (0 <= 100)%Z /\ (0 <= 400)%Z /\ (0 < 20)%Z /\ (0 < 500)%Z /\
  exists s,
    cap (riskScore (fst (score_factors (fun _ => "") (JS.of_Z 20) (JS.of_Z 500)
                           []
                           {| filesChanged := JS.of_Z 40;
                              additions := JS.of_Z 100;
                              deletions := JS.of_Z 400;
                              totalLines := JS.add (JS.of_Z 100) (JS.of_Z 400) |}
                           (Rand.constant (1#2))))) = JS.of_Z s /\
    (0 <= s <= 75)%Z.
Proof.
  repeat (split; [lia|]).
  apply (score_without_critical_paths (fun _ => "") 40 100 400 20 500
           (Rand.constant (1#2))); lia.
Defined.

(* ------------------------------------------------------------------ *)
(** ** The validate-inputs action: what is accepted, what is reported *)
(* ------------------------------------------------------------------ *)

Module ValidateInputsFacts.

Import Core ValidateInputs.

Lemma includes_In (array : list string) (s : string) :
  Text.includes array s = true <-> In s array.
Proof.
  unfold Text.includes. rewrite existsb_exists. split.
  - intros (x & H & E). apply String.eqb_eq in E. subst x. exact H.
  - intro H. exists s. split; [exact H | apply String.eqb_refl].
Qed.

(** [parseInt] gives NaN, negative zero or an integer, nothing else. *)
Lemma parseInt_cases (s : string) :
  Str.parseInt s = JS.NaN \/ Str.parseInt s = JS.NegZero \/
  exists z, Str.parseInt s = JS.of_Z z.
Proof.
  unfold Str.parseInt.
  destruct (match Str.trimStart s with
            | String "-" r => (true, r)
            | String "+" r => (false, r)
            | _ => (false, Str.trimStart s)
            end) as [neg rest].
  destruct (Str.digits None rest) as [[|p|p]|].
  - destruct neg; [right; left; reflexivity | right; right; exists 0%Z; reflexivity].
  - right; right. eexists. reflexivity.
  - right; right. eexists. reflexivity.
  - left. reflexivity.
Qed.

(** The port check passes exactly for an integer of [1, 65535]. *)
Lemma port_ok_iff (port : string) :
  port_ok port = true <->
  exists z, Str.parseInt port = JS.of_Z z /\ (1 <= z <= 65535)%Z.
Proof.
  unfold port_ok.
  destruct (parseInt_cases port) as [E|[E|[z E]]]; rewrite E.
  - cbn. split; [discriminate | intros (z & H & _); discriminate].
  - cbn. split; [discriminate | intros (z & H & _); discriminate].
  - unfold JS.gt. rewrite !JSFacts.lt_of_Z. cbn [isNaN JS.of_Z orb].
    rewrite negb_true_iff, orb_false_iff, !Z.ltb_ge. split.
    + intros [A B]. exists z. split; [reflexivity | lia].
    + intros (z' & H & B). apply of_Z_inj in H. subst z'. lia.
Qed.

Section Facts.

Variable semver_valid : string -> option string.

Lemma join_validEnvironments :
  Text.join ", " validEnvironments = "development, staging, production".
Proof. reflexivity. Qed.

(** The flag and the list of the checks, put side by side: a run accepts
    when all four checks pass, and otherwise lists the failing ones. *)
Lemma run_spec (environment version port enableSSL now : string) :
  run semver_valid (Returned environment) (Returned version) port enableSSL now =
  if environment_ok environment && version_ok semver_valid version
     && port_ok port && ssl_ok enableSSL
  then Validated {| ValidateInputs.environment := environment;
                    ValidateInputs.version := version;
                    ValidateInputs.port := Str.parseInt port;
                    ssl := String.eqb enableSSL "true";
                    timestamp := now |}
  else Invalid (expected_errors semver_valid environment version port enableSSL).
Proof.
  unfold run, expected_errors, check_environment, check_version, check_port,
    check_ssl, environment_ok, version_ok, port_ok, ssl_ok.
  rewrite join_validEnvironments.
  destruct (Text.includes validEnvironments environment);
    destruct (truthy (semver_valid version));
    destruct (isNaN (Str.parseInt port) || JS.lt (Str.parseInt port) (JS.of_Z 1)
              || JS.gt (Str.parseInt port) (JS.of_Z 65535));
    destruct (Text.includes ["true"; "false"] (Text.toLowerCase enableSSL));
    reflexivity.
Qed.

Lemma ssl_ok_iff (enableSSL : string) :
  ssl_ok enableSSL = true <->
  Text.toLowerCase enableSSL = "true" \/ Text.toLowerCase enableSSL = "false".
Proof.
  unfold ssl_ok. rewrite includes_In. cbn [In]. intuition congruence.
Qed.

Lemma validated_iff_aux (environment version port enableSSL now : string) :
  (exists config,
     run semver_valid (Returned environment) (Returned version)
         port enableSSL now = Validated config) <->
  In environment ["development"; "staging"; "production"] /\
  truthy (semver_valid version) = true /\
  (exists z, Str.parseInt port = JS.of_Z z /\ (1 <= z <= 65535)%Z) /\
  (Text.toLowerCase enableSSL = "true" \/ Text.toLowerCase enableSSL = "false").
Proof.
  rewrite run_spec, <- port_ok_iff, <- ssl_ok_iff.
  rewrite <- (includes_In ["development"; "staging"; "production"]).
  fold validEnvironments. fold (environment_ok environment).
  fold (version_ok semver_valid version).
  destruct (environment_ok environment), (version_ok semver_valid version),
    (port_ok port), (ssl_ok enableSSL); cbn [andb];
    split;
    try (intros [config H]; discriminate);
    try (intros (A & B & C & D); discriminate);
    try (intros _; eexists; reflexivity);
    try (intros _; repeat split; reflexivity).
Qed.

(** X9.  Validation succeeds exactly when the environment is one of
    development, staging and production, [semver.valid] accepts the
    version, the port parses to an integer of [1, 65535] and enable-ssl is
    true or false in any letter case. *)
Theorem validated_iff (environment version port enableSSL now : string) :
  (exists config,
     run semver_valid (Returned environment) (Returned version)
         port enableSSL now = Validated config) <->
  In environment ["development"; "staging"; "production"] /\
  truthy (semver_valid version) = true /\
  (exists z, Str.parseInt port = JS.of_Z z /\ (1 <= z <= 65535)%Z) /\
  (Text.toLowerCase enableSSL = "true" \/ Text.toLowerCase enableSSL = "false").
Proof. apply validated_iff_aux. Qed.

(** X10.  A validated config carries the inputs as given, with a port that
    is an integer of [1, 65535], an environment from the list, and ssl true
    only for an enable-ssl input that is exactly true. *)
Theorem validated_config (environment version port enableSSL now : string)
    (config : Config)
    (H : run semver_valid (Returned environment) (Returned version)
             port enableSSL now = Validated config) :
  ValidateInputs.environment config = environment /\
  In environment ["development"; "staging"; "production"] /\
  ValidateInputs.version config = version /\
  (exists z, ValidateInputs.port config = JS.of_Z z /\ (1 <= z <= 65535)%Z) /\
  (ssl config = true <-> enableSSL = "true") /\
  timestamp config = now.
Proof.
  assert (V : exists c, run semver_valid (Returned environment)
                (Returned version) port enableSSL now = Validated c)
    by (exists config; exact H).
  apply validated_iff_aux in V.
  destruct V as (A & _ & (z & Pz & Bz) & _).
  rewrite run_spec in H.
  destruct (environment_ok environment && version_ok semver_valid version
            && port_ok port && ssl_ok enableSSL); [|discriminate].
  injection H as <-. cbn.
  split; [reflexivity|]. split; [exact A|]. split; [reflexivity|].
  split; [exists z; split; assumption|].
  split; [apply String.eqb_eq | reflexivity].
Qed.

Lemma length_report (ok : bool) (message : string) :
  List.length (report ok message) = if ok then 0%nat else 1%nat.
Proof. destruct ok; reflexivity. Qed.

(** X11.  A run that fails validation reports every failing check, not just
    the first: the errors are one message per failing check in the order
    environment, version, port, enable-ssl, so there are as many errors as
    failing checks and at least one; each is logged after a header line and
    the failure message is fixed. *)
Theorem invalid_lists_every_failure
    (environment version port enableSSL now : string) (errors : list string)
    (H : run semver_valid (Returned environment) (Returned version)
             port enableSSL now = Invalid errors) :
  errors = expected_errors semver_valid environment version port enableSSL /\
  List.length errors =
    failures semver_valid environment version port enableSSL /\
  (1 <= List.length errors <= 4)%nat /\
  List.length (error_log (Invalid errors)) = S (List.length errors) /\
  failure_message (Invalid errors) = Some "Input validation failed".
Proof.
  rewrite run_spec in H.
  destruct (environment_ok environment && version_ok semver_valid version
            && port_ok port && ssl_ok enableSSL) eqn:A; [discriminate|].
  injection H as <-.
  assert (L : List.length (expected_errors semver_valid environment version
                             port enableSSL) =
              failures semver_valid environment version port enableSSL).
  { unfold expected_errors, failures.
    rewrite !length_app, !length_report. lia. }
  split; [reflexivity|]. split; [exact L|]. split.
  - rewrite L. unfold failures.
    destruct (environment_ok environment), (version_ok semver_valid version),
      (port_ok port), (ssl_ok enableSSL); cbn in A |- *; try lia; discriminate.
  - split; [|reflexivity]. cbn [error_log List.length]. rewrite length_map.
    reflexivity.
Qed.

Lemma toLowerCase_true_not_true (s : string) :
  s <> "true" -> String.eqb s "true" = false.
Proof. intro N. apply String.eqb_neq. exact N. Qed.

(** X12.  The enable-ssl check ignores letter case, the conversion to a
    boolean does not: an input such as TRUE or True passes validation, and
    the config then has ssl false. *)
Theorem ssl_other_case_gives_false
    (environment version port enableSSL now : string)
    (He : environment_ok environment = true)
    (Hv : version_ok semver_valid version = true)
    (Hp : port_ok port = true)
    (Hl : Text.toLowerCase enableSSL = "true")
    (Hn : enableSSL <> "true") :
  exists config,
    run semver_valid (Returned environment) (Returned version)
        port enableSSL now = Validated config /\
    ssl config = false.
Proof.
  rewrite run_spec, He, Hv, Hp. unfold ssl_ok. rewrite Hl. cbn [andb].
  change (Text.includes ["true"; "false"] "true") with true. cbv iota.
  eexists. split; [reflexivity|]. cbn [ssl].
  apply toLowerCase_true_not_true. exact Hn.
Qed.

(** X13.  The port is read with [parseInt], which stops at the first
    character that is not a digit: a port in range followed by any such
    text is accepted as that port. *)
Theorem port_with_trailing_text_accepted
    (environment version enableSSL now : string) (z : Z) (rest : string)
    (He : environment_ok environment = true)
    (Hv : version_ok semver_valid version = true)
    (Hs : ssl_ok enableSSL = true)
    (Hz : (1 <= z <= 65535)%Z)
    (Hr : head_is not_digit rest = true) :
  exists config,
    run semver_valid (Returned environment) (Returned version)
        (JS.Z_toString z ++ rest) enableSSL now = Validated config /\
    ValidateInputs.port config = JS.of_Z z.
Proof.
  pose proof (parseInt_decimal z rest Hr) as P.
  assert (Hp : port_ok (JS.Z_toString z ++ rest) = true).
  { apply port_ok_iff. exists z. split; [exact P | exact Hz]. }
  rewrite run_spec, He, Hv, Hp, Hs. cbn [andb].
  eexists. split; [reflexivity|]. cbn [ValidateInputs.port]. exact P.
Qed.

End Facts.

Lemma validated_config_witness :
  run (fun v => Some v) (Returned "staging") (Returned "1.2.3")
      "8080" "true" "2024-01-01T00:00:00.000Z" =
    Validated {| environment := "staging"; version := "1.2.3";
                 port := JS.of_Z 8080; ssl := true;
                 timestamp := "2024-01-01T00:00:00.000Z" |} /\
  exists z, JS.of_Z 8080 = JS.of_Z z /\ (1 <= z <= 65535)%Z.
Proof.
  assert (H : run (fun v => Some v) (Returned "staging") (Returned "1.2.3")
                  "8080" "true" "2024-01-01T00:00:00.000Z" =
              Validated {| environment := "staging"; version := "1.2.3";
                           port := JS.of_Z 8080; ssl := true;
                           timestamp := "2024-01-01T00:00:00.000Z" |})
    by reflexivity.
  split; [exact H|].
  destruct (validated_config (fun v => Some v) _ _ _ _ _ _ H)
    as (_ & _ & _ & P & _).
  exact P.
Defined.

Lemma invalid_lists_every_failure_witness :
  run (fun _ => None) (Returned "test") (Returned "1.0") "70000" "yes"
      "2024-01-01T00:00:00.000Z" =
    Invalid
      ["Invalid environment: test. Must be one of: development, staging, production";
       "Invalid version: 1.0. Must be valid semver (e.g., 1.0.0)";
       "Invalid port: 70000. Must be between 1 and 65535";
       "Invalid enable-ssl: yes. Must be true or false"] /\
  failures (fun _ => None) "test" "1.0" "70000" "yes" = 4%nat.
Proof.
  assert (H : run (fun _ => None) (Returned "test") (Returned "1.0") "70000"
                  "yes" "2024-01-01T00:00:00.000Z" =
    Invalid
      ["Invalid environment: test. Must be one of: development, staging, production";
       "Invalid version: 1.0. Must be valid semver (e.g., 1.0.0)";
       "Invalid port: 70000. Must be between 1 and 65535";
       "Invalid enable-ssl: yes. Must be true or false"])
    by reflexivity.
  split; [exact H|].
  destruct (invalid_lists_every_failure (fun _ => None) _ _ _ _ _ _ H)
    as (_ & L & _).
  symmetry. exact L.
Defined.

Lemma ssl_other_case_gives_false_witness :
  environment_ok "production" = true /\
  version_ok (fun v => Some v) "2.0.0" = true /\
  port_ok "443" = true /\
  Text.toLowerCase "TRUE" = "true" /\ "TRUE" <> "true" /\
  exists config,
    run (fun v => Some v) (Returned "production") (Returned "2.0.0")
        "443" "TRUE" "2024-01-01T00:00:00.000Z" = Validated config /\
    ssl config = false.
Proof.
  split; [reflexivity|]. split; [reflexivity|]. split; [reflexivity|].
  split; [reflexivity|]. split; [discriminate|].
  apply (ssl_other_case_gives_false (fun v => Some v) "production" "2.0.0"
           "443" "TRUE" "2024-01-01T00:00:00.000Z");
    [reflexivity | reflexivity | reflexivity | reflexivity | discriminate].
Defined.

Lemma port_with_trailing_text_accepted_witness :
  environment_ok "development" = true /\
  version_ok (fun v => Some v) "0.1.0" = true /\
  ssl_ok "false" = true /\ (1 <= 8080 <= 65535)%Z /\
  head_is not_digit ".5 tcp" = true /\
  exists config,
    run (fun v => Some v) (Returned "development") (Returned "0.1.0")
        (JS.Z_toString 8080 ++ ".5 tcp") "false"
        "2024-01-01T00:00:00.000Z" = Validated config /\
    port config = JS.of_Z 8080.
Proof.
  split; [reflexivity|]. split; [reflexivity|]. split; [reflexivity|].
  split; [lia|]. split; [reflexivity|].
  apply (port_with_trailing_text_accepted (fun v => Some v) "development"
           "0.1.0" "false" "2024-01-01T00:00:00.000Z" 8080 ".5 tcp");
    [reflexivity | reflexivity | reflexivity | lia | reflexivity].
Defined.

End ValidateInputsFacts.

(* ------------------------------------------------------------------ *)
(** ** The file-processor action *)
(* ------------------------------------------------------------------ *)

Module FileProcessorFacts.

Import Core FileProcessor.

(** [s.split(sep)] has one piece more than [s] has separators. *)
Lemma split_length (sep : ascii) (s : string) :
  List.length (Str.split sep s) = S (occurrences sep s).
Proof.
  induction s as [|c s IH]; cbn [Str.split occurrences]; [reflexivity|].
  destruct (Ascii.eqb c sep).
  - cbn [List.length]. rewrite IH. reflexivity.
  - pose proof (split_nonempty sep s) as N.
    destruct (Str.split sep s) as [|piece rest]; [congruence|].
    cbn [List.length] in *. exact IH.
Qed.

Lemma upper_LF (c : ascii) : Ascii.eqb (Text.upper c) LF = Ascii.eqb c LF.
Proof. destruct c as [[] [] [] [] [] [] [] []]; reflexivity. Qed.

Lemma upper_idempotent (c : ascii) : Text.upper (Text.upper c) = Text.upper c.
Proof. destruct c as [[] [] [] [] [] [] [] []]; reflexivity. Qed.

Lemma toUpperCase_length (s : string) :
  String.length (Text.toUpperCase s) = String.length s.
Proof.
  induction s as [|c s IH]; cbn; [reflexivity | f_equal; exact IH].
Qed.

Lemma toUpperCase_idempotent (s : string) :
  Text.toUpperCase (Text.toUpperCase s) = Text.toUpperCase s.
Proof.
  induction s as [|c s IH]; [reflexivity|].
  unfold Text.toUpperCase in *. cbn [Text.map_chars].
  rewrite upper_idempotent, IH. reflexivity.
Qed.

Lemma toUpperCase_newlines (s : string) :
  occurrences LF (Text.toUpperCase s) = occurrences LF s.
Proof.
  induction s as [|c s IH]; [reflexivity|].
  unfold Text.toUpperCase in *. cbn [Text.map_chars occurrences].
  rewrite upper_LF, IH. reflexivity.
Qed.

Lemma filter_nil_iff {A} (f : A -> bool) (l : list A) :
  filter f l = [] <-> Forall (fun x => f x = false) l.
Proof.
  induction l as [|x l IH]; cbn [filter].
  - split; [constructor | reflexivity].
  - destruct (f x) eqn:E.
    + split; [discriminate|]. intro F. inversion F; congruence.
    + rewrite IH. split.
      * intro F. constructor; assumption.
      * intro F. inversion F; assumption.
Qed.

Lemma length_zero_iff (s : string) :
  (0 <? Text.length s)%Z = false <-> s = "".
Proof.
  unfold Text.length. destruct s; cbn [String.length].
  - split; reflexivity.
  - split; [|discriminate]. rewrite Z.ltb_ge. lia.
Qed.

Lemma LF_is_white (c : ascii) :
  Ascii.eqb c LF || Str.is_white c = Str.is_white c.
Proof.
  destruct (Ascii.eqb c LF) eqn:E; [|reflexivity].
  apply Ascii.eqb_eq in E. subst c. reflexivity.
Qed.

Lemma all_chars_ext (p q : ascii -> bool) (s : string) :
  (forall c, p c = q c) -> all_chars p s = all_chars q s.
Proof.
  intro H. induction s as [|c s IH]; cbn [all_chars]; [reflexivity|].
  rewrite H, IH. reflexivity.
Qed.

(** No line has anything but white space exactly when the text has not. *)
Lemma count_non_empty_zero_iff (content : string) :
  count_non_empty (Str.split LF content) = 0%Z <->
  all_chars Str.is_white content = true.
Proof.
  unfold count_non_empty.
  rewrite <- (all_chars_ext _ _ content LF_is_white).
  rewrite <- split_all_white.
  split.
  - intro H. assert (E : filter (fun line => (0 <? Text.length (Str.trim line))%Z)
                           (Str.split LF content) = []).
    { destruct (filter _ _); [reflexivity | cbn [List.length] in H; lia]. }
    apply filter_nil_iff in E. rewrite Forall_forall in *.
    intros line Hl. apply trim_empty_iff, length_zero_iff, E. exact Hl.
  - intro F. assert (E : filter (fun line => (0 <? Text.length (Str.trim line))%Z)
                           (Str.split LF content) = []).
    { apply filter_nil_iff. rewrite Forall_forall in *.
      intros line Hl. apply length_zero_iff, trim_empty_iff, F. exact Hl. }
    rewrite E. reflexivity.
Qed.

Lemma words_nil_iff (in_run : bool) (s : string) :
  filter (fun word => (0 <? Text.length word)%Z) (Text.split_runs in_run s) = []
  <-> all_chars Str.is_white s = true.
Proof.
  revert in_run. induction s as [|c s IH]; intro in_run;
    cbn [Text.split_runs all_chars].
  - cbn. tauto.
  - destruct (Str.is_white c); cbn [andb].
    + destruct in_run; [apply IH|]. cbn [filter].
      change (0 <? Text.length "")%Z with false. cbv iota. apply IH.
    + destruct (Text.split_runs false s) as [|piece rest]; cbn [filter];
        change (0 <? Text.length (String c ?p))%Z with true;
        split; discriminate.
Qed.

Lemma words_bound (in_run : bool) (s : string) :
  (List.length (filter (fun word => (0 <? Text.length word)%Z)
                       (Text.split_runs in_run s)) <= String.length s)%nat.
Proof.
  revert in_run. induction s as [|c s IH]; intro in_run;
    cbn [Text.split_runs String.length].
  - cbn. lia.
  - destruct (Str.is_white c).
    + destruct in_run.
      * specialize (IH true). lia.
      * cbn [filter]. change (0 <? Text.length "")%Z with false. cbv iota.
        specialize (IH true). lia.
    + specialize (IH false).
      destruct (Text.split_runs false s) as [|piece rest]; cbn [filter] in *.
      * cbn. lia.
      * change (0 <? Text.length (String c piece))%Z with true. cbv iota.
        cbn [List.length].
        destruct (0 <? Text.length piece)%Z; cbn [List.length] in IH; lia.
Qed.

Lemma count_words_zero_iff (content : string) :
  count_words content = 0%Z <-> all_chars Str.is_white content = true.
Proof.
  unfold count_words, Text.split_whitespace.
  rewrite <- (words_nil_iff false content).
  split.
  - intro H. destruct (filter _ _); [reflexivity | cbn [List.length] in H; lia].
  - intro E. rewrite E. reflexivity.
Qed.

Section Facts.

Variable fs : FileSystem.
Variable dirname : string -> string.
Variable toFixed2 : JS.number -> string.

(** X14.  The statistics of a text.  The line count is one more than the
    number of line feeds, so an empty file has one line and the average
    line length never divides by zero; the non-empty lines are at most the
    lines, the words at most the characters; and there is no word exactly
    when there is no non-empty line, that is when the text is white space
    throughout (for an ASCII text). *)
Theorem stats_of_content (content : string) (A : ascii_text content) :
  exists text total nonEmpty characters words,
    process toFixed2 "stats" content (Str.split LF content) =
      ([], Ok (text, {| totalLines := Some total;
                        nonEmptyLines := Some nonEmpty;
                        totalCharacters := Some characters;
                        FileProcessor.words := Some words |})) /\
    total = (1 + Z.of_nat (occurrences LF content))%Z /\
    characters = Z.of_nat (String.length content) /\
    (0 <= nonEmpty <= total)%Z /\
    (0 <= words <= characters)%Z /\
    (words = 0%Z <-> nonEmpty = 0%Z) /\
    (words = 0%Z <-> all_chars Str.is_white content = true) /\
    fin_val (JS.div (JS.of_Z characters) (JS.of_Z total))
            (inject_Z characters / inject_Z total).
Proof.
  do 5 eexists. split; [reflexivity|].
  pose proof (split_length LF content) as SL.
  split; [rewrite SL; lia|]. split; [reflexivity|].
  split.
  { unfold count_non_empty.
    pose proof (filter_length_le
                  (fun line => (0 <? Text.length (Str.trim line))%Z)
                  (Str.split LF content)). lia. }
  split.
  { unfold count_words, Text.split_whitespace.
    change (Text.length content) with (Z.of_nat (String.length content)).
    pose proof (words_bound false content). lia. }
  split.
  { rewrite count_words_zero_iff, count_non_empty_zero_iff. reflexivity. }
  split; [apply count_words_zero_iff|].
  apply JSFacts.div_fin_pos; try apply JSFacts.fin_val_of_Z.
  - apply inject_Z_nonneg. unfold Text.length. lia.
  - apply inject_Z_pos. rewrite SL. lia.
Qed.

(** X15.  The uppercase operation writes a text of the same length and the
    same number of lines as the input, so the line count it reports, taken
    from the input, is that of the file written; upper-casing the result
    again changes nothing (for an ASCII text). *)
Theorem uppercase_keeps_shape (content : string) (A : ascii_text content) :
  exists text total,
    process toFixed2 "uppercase" content (Str.split LF content) =
      ([], Ok (text, {| totalLines := Some total; nonEmptyLines := None;
                        totalCharacters := None;
                        FileProcessor.words := None |})) /\
    text = Text.toUpperCase content /\
    String.length text = String.length content /\
    total = Z.of_nat (List.length (Str.split LF text)) /\
    Text.toUpperCase text = text.
Proof.
  do 2 eexists. split; [reflexivity|]. split; [reflexivity|].
  split; [apply toUpperCase_length|]. split.
  - rewrite !split_length, toUpperCase_newlines. reflexivity.
  - apply toUpperCase_idempotent.
Qed.

(** The [switch]: a known operation gives a text and a line count and makes
    no call; any other operation throws. *)
Lemma process_cases (operation content : string) (lines : list string) :
  (exists text stats,
     process toFixed2 operation content lines = ([], Ok (text, stats)) /\
     totalLines stats = Some (Z.of_nat (List.length lines)) /\
     (operation = "count-lines" \/ operation = "uppercase" \/
      operation = "stats")) \/
  (process toFixed2 operation content lines =
     ([], Throws ("Unknown operation: " ++ operation)) /\
   operation <> "count-lines" /\ operation <> "uppercase" /\
   operation <> "stats").
Proof.
  unfold process.
  destruct (String.eqb_spec operation "count-lines") as [E1|N1].
  { left. do 2 eexists. split; [reflexivity|]. split; [reflexivity | auto]. }
  destruct (String.eqb_spec operation "uppercase") as [E2|N2].
  { left. do 2 eexists. split; [reflexivity|]. split; [reflexivity | auto]. }
  destruct (String.eqb_spec operation "stats") as [E3|N3].
  { left. do 2 eexists. split; [reflexivity|]. split; [reflexivity | auto]. }
  right. repeat split; assumption.
Qed.

(** X16.  A run that sets its outputs has made exactly four calls, in this
    order: the input file was found and read, the operation was one of the
    three known ones, the directory of the output file was created and the
    output file written once.  The output path is the output-file input and
    lines-processed is one more than the number of line feeds read, also for
    an empty file: the fallback on [lines.length] is never used. *)
Theorem done_means (inputFile outputFile : required_input)
    (operation : string) (calls : list Call)
    (lines_processed output_path : string)
    (H : run fs dirname toFixed2 inputFile outputFile operation =
         (calls, Done lines_processed output_path)) :
  exists input output content text,
    inputFile = Returned input /\ outputFile = Returned output /\
    access fs input = Ok tt /\ readFile fs input = Ok content /\
    (operation = "count-lines" \/ operation = "uppercase" \/
     operation = "stats") /\
    calls = [Access input; ReadFile input; MkdirP (dirname output);
             WriteFile output text] /\
    output_path = output /\
    lines_processed =
      JS.Z_toString (1 + Z.of_nat (occurrences LF content)).
Proof.
  unfold run, body in H.
  destruct inputFile as [input|m]; [|cbn in H; discriminate].
  destruct outputFile as [output|m]; [|cbn in H; discriminate].
  destruct (access fs input) as [[]|e] eqn:A; [|cbn in H; discriminate].
  destruct (readFile fs input) as [content|e] eqn:R; [|cbn in H; discriminate].
  cbn [await rethrow bind] in H.
  destruct (process_cases operation content (Str.split LF content))
    as [(text & stats & P & T & K)|(P & _)];
    rewrite P in H; [|cbn in H; discriminate].
  cbn [bind] in H. rewrite T in H.
  destruct (mkdirP fs (dirname output)) as [[]|e] eqn:M;
    [|cbn in H; discriminate].
  destruct (writeFile fs output text) as [[]|e] eqn:W;
    [|cbn in H; discriminate].
  cbn in H. injection H as <- <- <-.
  exists input, output, content, text.
  repeat (split; [first [reflexivity | assumption]|]).
  change "010"%char with LF. rewrite split_length. f_equal.
  destruct (Z.of_nat (S (occurrences LF content)) =? 0)%Z; lia.
Qed.

(** X17.  An unknown operation writes nothing: the run fails, and the only
    calls it has made are the check and the read of the input file.  When
    the input file is missing the failure names the file, whatever
    [fs.access] threw, and the file is not read; otherwise, and when the
    read succeeds, the failure names the operation. *)
Theorem unknown_operation_writes_nothing (input output operation : string)
    (N1 : operation <> "count-lines") (N2 : operation <> "uppercase")
    (N3 : operation <> "stats") :
  exists calls message,
    run fs dirname toFixed2 (Returned input) (Returned output) operation =
      (calls, SetFailed ("Action failed: " ++ message)) /\
    existsb is_write calls = false /\
    (forall e, access fs input = Throws e ->
       calls = [Access input] /\
       message = "Input file not found: " ++ input) /\
    (forall content, access fs input = Ok tt ->
       readFile fs input = Ok content ->
       calls = [Access input; ReadFile input] /\
       message = "Unknown operation: " ++ operation).
Proof.
  unfold run, body.
  destruct (access fs input) as [[]|e] eqn:A.
  - destruct (readFile fs input) as [content|e] eqn:R.
    + cbn [await rethrow bind].
      destruct (process_cases operation content (Str.split LF content))
        as [(text & stats & _ & _ & [K|[K|K]])|(P & _)]; try congruence.
      rewrite P. cbn [bind app].
      do 2 eexists. split; [reflexivity|]. split; [reflexivity|].
      split; [intros e E; discriminate|].
      intros c _ E. injection E as <-. split; reflexivity.
    + cbn [await rethrow bind app].
      do 2 eexists. split; [reflexivity|]. split; [reflexivity|].
      split; [intros e' E; discriminate | intros c _ E; discriminate].
  - cbn [await rethrow bind app].
    do 2 eexists. split; [reflexivity|]. split; [reflexivity|].
    split; [intros e' _; split; reflexivity | intros c E; discriminate].
Qed.

End Facts.

Lemma stats_of_content_witness :
  ascii_text "to be  or not" /\
  exists text total nonEmpty characters words,
    process (fun _ => "13.00") "stats" "to be  or not"
            (Str.split LF "to be  or not") =
      ([], Ok (text, {| totalLines := Some total;
                        nonEmptyLines := Some nonEmpty;
                        totalCharacters := Some characters;
                        FileProcessor.words := Some words |})) /\
    total = 1%Z /\ characters = 13%Z /\ (words = 0%Z <-> nonEmpty = 0%Z).
Proof.
  assert (A : ascii_text "to be  or not") by reflexivity.
  split; [exact A|].
  destruct (stats_of_content (fun _ => "13.00") "to be  or not" A)
    as (text & total & nonEmpty & characters & words & P & T & C & _ & _ & Z
        & _).
  exists text, total, nonEmpty, characters, words.
  split; [exact P|]. split; [exact T|]. split; [exact C | exact Z].
Defined.

Lemma uppercase_keeps_shape_witness :
  ascii_text "risk report" /\
  exists text total,
    process (fun _ => "") "uppercase" "risk report"
            (Str.split LF "risk report") =
      ([], Ok (text, {| totalLines := Some total; nonEmptyLines := None;
                        totalCharacters := None;
                        FileProcessor.words := None |})) /\
    String.length text = String.length "risk report".
Proof.
  assert (A : ascii_text "risk report") by reflexivity.
  split; [exact A|].
  destruct (uppercase_keeps_shape (fun _ => "") "risk report" A)
    as (text & total & P & _ & L & _).
  exists text, total. split; [exact P | exact L].
Defined.

Lemma done_means_witness :
  exists calls lines_processed output_path,
    run (one_file "in.txt" "risk report") (fun _ => "out") (fun _ => "")
        (Returned "in.txt") (Returned "out/report.txt") "uppercase" =
      (calls, Done lines_processed output_path) /\
    exists input output content text,
      Returned "in.txt" = Returned input /\
      Returned "out/report.txt" = Returned output /\
      access (one_file "in.txt" "risk report") input = Ok tt /\
      readFile (one_file "in.txt" "risk report") input = Ok content /\
      ("uppercase" = "count-lines" \/ "uppercase" = "uppercase" \/
       "uppercase" = "stats") /\
      calls = [Access input; ReadFile input; MkdirP "out";
               WriteFile output text] /\
      output_path = output /\
      lines_processed =
        JS.Z_toString (1 + Z.of_nat (occurrences LF content)).
Proof.
  do 3 eexists. split; [vm_compute; reflexivity|].
  apply (done_means (one_file "in.txt" "risk report") (fun _ => "out")
           (fun _ => "") (Returned "in.txt") (Returned "out/report.txt")
           "uppercase").
  vm_compute. reflexivity.
Defined.

Lemma unknown_operation_writes_nothing_witness :
  "zip" <> "count-lines" /\ "zip" <> "uppercase" /\ "zip" <> "stats" /\
  exists calls message,
    run (one_file "in.txt" "risk report") (fun _ => "out") (fun _ => "")
        (Returned "in.txt") (Returned "out/report.txt") "zip" =
      (calls, SetFailed ("Action failed: " ++ message)) /\
    existsb is_write calls = false.
Proof.
  split; [discriminate|]. split; [discriminate|]. split; [discriminate|].
  destruct (unknown_operation_writes_nothing
              (one_file "in.txt" "risk report") (fun _ => "out") (fun _ => "")
              "in.txt" "out/report.txt" "zip")
    as (calls & message & R & W & _); try discriminate.
  exists calls, message. split; assumption.
Defined.

End FileProcessorFacts.

Lemma score_antitone_in_thresholds_witness :
  (0 <= 12)%Z /\ (0 <= 100)%Z /\ (0 <= 90)%Z /\
  (0 < 20 <= 40)%Z /\ (0 < 500 <= 800)%Z /\
  exists s s',
    cap (riskScore (fst (score_factors (fun _ => "") (JS.of_Z 20) (JS.of_Z 500)
                           ["src/auth"]
                           {| filesChanged := JS.of_Z 12;
                              additions := JS.of_Z 100;
                              deletions := JS.of_Z 90;
                              totalLines := JS.add (JS.of_Z 100) (JS.of_Z 90) |}
                           (Rand.constant (1#2))))) = JS.of_Z s /\
    cap (riskScore (fst (score_factors (fun _ => "") (JS.of_Z 40) (JS.of_Z 800)
                           ["src/auth"]
                           {| filesChanged := JS.of_Z 12;
                              additions := JS.of_Z 100;
                              deletions := JS.of_Z 90;
                              totalLines := JS.add (JS.of_Z 100) (JS.of_Z 90) |}
                           (Rand.constant (1#2))))) = JS.of_Z s' /\
    (s' <= s)%Z.
Proof.
  repeat (split; [lia|]).
  apply (score_antitone_in_thresholds (fun _ => "") 12 100 90 20 40 500 800
           ["src/auth"] (Rand.constant (1#2))); lia.
Defined.
